(** * KrishiOne: the computable parts of the farmer front end

    A shallow embedding of the functions of [App.jsx] and [api.js] that
    carry a contract: the EMI and yield calculators, the trend meter, the
    "Digital Mandi" listing board with its [useLocalStorage] hook, and the
    disease-detection wrapper.

    Conventions of the embedding.
    - The EMI calculator works on binary64 numbers ([float]) with the
      IEEE-754 operations, rounding, signed zeros, infinities and [nan]
      included; [Math.pow], which the language leaves to the engine, is a
      parameter.
    - Elsewhere a JavaScript number is an exact rational ([Q]), and where
      the source can meet [undefined] or a non-numeric value the type
      [number] adds [NaN]; IEEE-754 rounding and overflow are not
      represented there.
    - A function that may throw (or an async function that may reject)
      returns an [outcome]; [try { .. } catch (e) { .. }] is [try_catch].
    - What the browser decides (clock, random source, network, storage
      quota, [JSON.parse]) is an explicit argument. *)

From Stdlib Require Import QArith Qround Qpower ZArith Lia Lqa Ascii String Floats.
From stdpp Require Import base option list strings gmap.

Local Open Scope string_scope.
Local Open Scope list_scope.

(** ** Exceptions and outcomes *)

Record exn := Exn { exn_name : string; exn_message : string }.

Inductive outcome (A : Type) : Type :=
  | Returned (a : A)
  | Thrown (e : exn).
Arguments Returned {A} a.
Arguments Thrown {A} e.

#[export] Instance outcome_ret : MRet outcome := fun A a => Returned a.
#[export] Instance outcome_bind : MBind outcome := fun A B k c =>
  match c with
  | Returned a => k a
  | Thrown e => Thrown e
  end.

(** [try { body } catch (e) { handler e }] *)
Definition try_catch {A} (body : outcome A) (handler : exn -> outcome A) : outcome A :=
  match body with
  | Returned a => Returned a
  | Thrown e => handler e
  end.

Definition returns {A} (c : outcome A) : Prop := exists a, c = Returned a.
Definition throws {A} (c : outcome A) : Prop := exists e, c = Thrown e.

(** ** Numbers *)

Inductive number : Type :=
  | Fin (q : Q)
  | NaN.


Definition num_mul (a b : number) : number :=
  match a, b with
  | Fin x, Fin y => Fin (x * y)
  | _, _ => NaN
  end.

Definition num_sub (a b : number) : number :=
  match a, b with
  | Fin x, Fin y => Fin (x - y)
  | _, _ => NaN
  end.

(** [a > 0] and [a < 0]; every comparison with [NaN] is false. *)
Definition num_gt0 (a : number) : bool :=
  match a with
  | Fin x => Z.ltb 0 (Qnum x)
  | NaN => false
  end.

Definition num_lt0 (a : number) : bool :=
  match a with
  | Fin x => Z.ltb (Qnum x) 0
  | NaN => false
  end.

(** [Math.sign] *)
Definition Math_sign (a : number) : number :=
  match a with
  | Fin x => Fin (inject_Z (Z.sgn (Qnum x)))
  | NaN => NaN
  end.

(** ToNumber of the result of a lookup: [undefined] becomes [NaN]. *)
Definition to_number (o : option number) : number :=
  match o with
  | Some a => a
  | None => NaN
  end.

(** [Math.round] on exact rationals: the nearest integer, halves towards
    +infinity. *)
Definition Math_round (x : Q) : Z := Qfloor (x + (1 # 2)).

(** ** Double-precision numbers

    The EMI calculator is embedded over binary64 numbers, with the IEEE-754
    operations of the kernel: [r / 12 / 100] is two rounded divisions,
    [=?] is [===] on numbers (it equates [0] and [-0] and is false on
    [nan]). *)

Definition two52 : float := 0x1p52%float.

(** The greatest integer not above [x], for [|x| < 2^52]: adding and
    taking away [2^52] rounds [x] to a neighbouring integer, which is
    lowered by one when it lies above [x]. *)
Definition floor_double (x : float) : float :=
  (let t := if 0 <=? x then (x + two52) - two52 else (x - two52) + two52 in
   if x <? t then t - 1 else t)%float.

(** [Math.round]: [x] itself when it is [nan], infinite or integral (every
    double from [2^52] on is integral); otherwise the nearest integer,
    halves towards +infinity, with [-0] for a negative [x] that rounds to
    zero. *)
Definition Math_round_double (x : float) : float :=
  (if is_nan x || is_infinity x || (two52 <=? abs x) then x
   else
     let f := floor_double x in
     if f =? x then x
     else
       let y := if 0.5 <=? x - f then f + 1 else f in
       if (y =? 0) && (x <? 0) then -0 else y)%float.

(** ** EMI calculator ([EMICalc]) *)

Record EMIValues := { emi : float; total : float; interest : float }.

(** The three amounts handed to [formatINR.format] in the rendered rows
    "EMI", "Total Interest" and "Total Payment". *)
Record EMIShown := { shown_emi : float; shown_interest : float; shown_total : float }.

Section EMICalc.

(** [Math.pow] is left to the engine by the language ("an
    implementation-approximated value"); it is a parameter here. *)
Variable Math_pow : float -> float -> float.

(** The three constants computed in the body of [EMICalc] from the state
    [P] (principal), [r] (annual percent) and [n] (months). *)
Definition EMICalc (P r n : float) : EMIValues :=
  (let m := r / 12 / 100 in
   let emi := if m =? 0
              then P / n
              else P * m * Math_pow (1 + m) n / (Math_pow (1 + m) n - 1) in
   let total := emi * n in
   let interest := total - P in
   {| emi := emi; total := total; interest := interest |})%float.

Definition EMICalc_render (P r n : float) : EMIShown :=
  let v := EMICalc P r n in
  {| shown_emi := Math_round_double (emi v);
     shown_interest := Math_round_double (interest v);
     shown_total := Math_round_double (total v) |}.

(** The installment as the specification words it (section 4.1), at a
    monthly rate [m], to be compared with [emi (EMICalc P r n)]. *)
Definition installment_at (P m n : float) : float :=
  (if m =? 0
   then P / n
   else P * m * Math_pow (1 + m) n / (Math_pow (1 + m) n - 1))%float.

(** The specification takes [m = r / 1200]. *)
Definition installment_reference (P r n : float) : float :=
  installment_at P (r / 1200)%float n.

(** The outputs as the specification words them: the installment rounded
    to the nearest unit, the total payment as installment times term (read
    with the rounded or with the unrounded installment), the interest as
    total payment minus principal. *)
Definition EMI_outputs_as_specified (P r n : float) (o : EMIShown) : Prop :=
  (let inst := installment_reference P r n in
   (shown_emi o =? Math_round_double inst) = true /\
   ((shown_total o =? shown_emi o * n) = true \/
    (shown_total o =? inst * n) = true) /\
   (shown_interest o =? shown_total o - P) = true)%float.

End EMICalc.

(** A stand-in for [Math.pow] at the whole exponents from 0 to 1024: the
    product of [e] copies of [b], rounded at each step; [nan] at any other
    exponent. The statements below hold for every [Math_pow]; this one
    serves where a concrete one is needed. *)
Fixpoint product_pow_fuel (fuel : nat) (b e : float) : float :=
  match fuel with
  | O => nan
  | S fuel' =>
      (if e =? 0 then 1 else b * product_pow_fuel fuel' b (e - 1))%float
  end.

Definition product_pow (b e : float) : float := product_pow_fuel 1025 b e.

(** ** Yield calculator ([YieldCalc]) *)

(** [baseYield], quintal per acre. *)
Definition baseYield : gmap string Q :=
  {[ "Wheat" := 18%Q; "Rice" := 22%Q; "Maize" := 20%Q;
     "Tomato" := 80%Q; "Onion" := 100%Q ]}.

Record YieldValues := { yieldQtl : number; revenue : number }.

(** [baseYield[crop]] is [undefined] off the table (or a member of
    [Object.prototype], which is not a number either); the product with it
    is [NaN]. The body has no [throw]. *)
Definition YieldCalc (crop : string) (area factor : number) : outcome YieldValues :=
  let yieldQtl := num_mul (num_mul (to_number (Fin <$> baseYield !! crop)) area) factor in
  let revenue := num_mul yieldQtl (Fin 2000) in
  Returned {| yieldQtl := yieldQtl; revenue := revenue |}.

(** An outcome that is a failure named [InvalidArgument]. *)
Definition fails_with_InvalidArgument {A} (c : outcome A) : Prop :=
  exists message, c = Thrown (Exn "InvalidArgument" message).

(** ** Trend meter ([DecisionMeter]) *)

(** [a.slice(-k)] *)
Definition slice_last {A} (k : nat) (a : list A) : list A := drop (List.length a - k) a.

Definition trend (series : list number) : number :=
  if (List.length series <? 4)%nat then Fin 0
  else
    let last := slice_last 4 series in
    Math_sign (num_sub (to_number (last !! 3%nat)) (to_number (last !! 0%nat))).

Definition DecisionMeter (series : list number) : string :=
  let trend := trend series in
  if num_gt0 trend then "Hold (Uptrend)"
  else if num_lt0 trend then "Sell Soon (Downtrend)"
  else "Neutral".

(** ** Browser storage and the [useLocalStorage] hook *)

(** [localStorage]: access may be refused as a whole, a write may exceed
    the quota; [None] from [getItem] is JavaScript's [null]. *)
Record LocalStorage := {
  ls_denied : bool;
  ls_quota : N;
  ls_records : gmap string string
}.

Definition SecurityError : exn := Exn "SecurityError" "The operation is insecure.".
Definition QuotaExceededError : exn := Exn "QuotaExceededError" "The quota has been exceeded.".

Definition getItem (ls : LocalStorage) (key : string) : outcome (option string) :=
  if ls_denied ls then Thrown SecurityError
  else Returned (ls_records ls !! key).

Definition setItem (ls : LocalStorage) (key text : string) : outcome LocalStorage :=
  if ls_denied ls then Thrown SecurityError
  else if (ls_quota ls <? N.of_nat (String.length text))%N then Thrown QuotaExceededError
  else Returned {| ls_denied := ls_denied ls; ls_quota := ls_quota ls;
                   ls_records := <[key := text]> (ls_records ls) |}.

(** [JSON.parse] and [JSON.stringify] at the type of the stored state. *)
Class JSON (A : Type) := {
  JSON_parse : string -> outcome A;
  JSON_stringify : A -> outcome string
}.

(** A string is truthy when it is not empty. *)
Definition truthy (s : string) : bool := negb (String.eqb s "").

Definition SyntaxError : exn := Exn "SyntaxError" "Unexpected token in JSON".

(** A stand-in for the browser's JSON functions, for use where a concrete
    one is needed: it reads and writes the empty collection only. Any other
    text is a syntax error and any other collection is refused. *)
Definition empty_array_JSON {A} : JSON (list A) := {|
  JSON_parse text := if String.eqb text "[]" then Returned [] else Thrown SyntaxError;
  JSON_stringify l :=
    match l with
    | [] => Returned "[]"
    | _ => Thrown (Exn "TypeError" "cannot serialise")
    end
|}.

Section useLocalStorage.
Context {A : Type} `{JSON A}.

(** The lazy initialiser handed to [useState]. *)
Definition useLocalStorage_init (ls : LocalStorage) (key : string) (initialValue : A)
  : outcome A :=
  try_catch
    (raw ← getItem ls key;
     match raw with
     | Some text => if truthy text then JSON_parse text else mret initialValue
     | None => mret initialValue
     end)
    (fun _ => mret initialValue).

(** The effect that runs after a render in which [state] changed. *)
Definition useLocalStorage_effect (ls : LocalStorage) (key : string) (state : A)
  : outcome LocalStorage :=
  try_catch
    (text ← JSON_stringify state; setItem ls key text)
    (fun _ => mret ls).
End useLocalStorage.

(** ** Identifiers ([genId]) *)

(** What the browser answers during one call of [addItem]: the result of
    [crypto.randomUUID()] ([None] when it is not a function), the text of
    [Math.random().toString(36)] and the reading of [Date.now()]. *)
Record Browser := {
  crypto_randomUUID : option (outcome string);
  Math_random_text : string;
  Date_now : Z
}.

Definition digit36 (d : N) : ascii :=
  if (d <? 10)%N then ascii_of_N (48 + d) else ascii_of_N (87 + d).

Fixpoint toString36_digits (fuel : nat) (n : N) (acc : string) : string :=
  match fuel with
  | O => acc
  | S fuel' =>
      let acc' := String (digit36 (n mod 36)) acc in
      if (n / 36 =? 0)%N then acc' else toString36_digits fuel' (n / 36) acc'
  end.

(** [n.toString(36)] for a whole [n >= 0]. *)
Definition toString36 (n : Z) : string :=
  toString36_digits (S (N.to_nat (N.log2 (Z.to_N n)))) (Z.to_N n) "".

(** [s.slice(from, to)] and [s.slice(-k)] on strings. *)
Definition str_slice (from to : nat) (s : string) : string := substring from (to - from) s.
Definition str_slice_last (k : nat) (s : string) : string :=
  substring (String.length s - k) k s.

Definition genId (b : Browser) : string :=
  let attempt :=
    try_catch
      (match crypto_randomUUID b with
       | Some call => u ← call; mret (Some u)
       | None => mret None
       end)
      (fun _ => mret None) in
  match attempt with
  | Returned (Some u) => u
  | _ => "id-" +:+ str_slice 2 9 (Math_random_text b) +:+ "-" +:+
         str_slice_last 5 (toString36 (Date_now b))
  end.

(** ** The listing board ([DigitalMandiPage]) *)

Record Form := {
  crop : string; qty : number; price : number; location : string; contact : string
}.

Record Listing := {
  l_id : string; l_ts : Z;
  l_crop : string; l_qty : number; l_price : number;
  l_location : string; l_contact : string
}.

(** [{ id, ts, ...form }] *)
Definition make_listing (id : string) (ts : Z) (f : Form) : Listing :=
  {| l_id := id; l_ts := ts;
     l_crop := crop f; l_qty := qty f; l_price := price f;
     l_location := location f; l_contact := contact f |}.

(** The submitted fields of a stored entry. *)
Definition fields_of (l : Listing) : Form :=
  {| crop := l_crop l; qty := l_qty l; price := l_price l;
     location := l_location l; contact := l_contact l |}.

Definition initial : Form :=
  {| crop := "Tomato"; qty := Fin 10; price := Fin 1500;
     location := "Bhubaneswar"; contact := "9999999999" |}.

Definition mandi_key : string := "mandi-items".

(** The state of the page: the two [useState] cells and the storage the
    hook writes to. *)
Record MandiPage := {
  items : list Listing;
  form : Form;
  storage : LocalStorage
}.

Section DigitalMandiPage.
Context `{JSON (list Listing)}.

(** Mounting the page: [useLocalStorage("mandi-items", [])], then its
    effect. The collection is typed as a list of listings; a stored text
    that parses to anything else is outside this embedding. *)
Definition DigitalMandiPage (ls : LocalStorage) : outcome MandiPage :=
  loaded ← useLocalStorage_init ls mandi_key [];
  ls' ← useLocalStorage_effect ls mandi_key loaded;
  mret {| items := loaded; form := initial; storage := ls' |}.

(** [setItems(next)]: new state, then the persisting effect. *)
Definition setItems (next : list Listing) (f : Form) (st : MandiPage) : outcome MandiPage :=
  ls' ← useLocalStorage_effect (storage st) mandi_key next;
  mret {| items := next; form := f; storage := ls' |}.

Definition addItem (b : Browser) (st : MandiPage) : outcome MandiPage :=
  let form := form st in
  if negb (truthy (crop form)) || negb (truthy (location form)) || negb (truthy (contact form))
  then mret st
  else
    let next := items st ++ [make_listing (genId b) (Date_now b) form] in
    setItems next initial st.

Definition remove (id : string) (st : MandiPage) : outcome MandiPage :=
  setItems (filter (fun i => l_id i ≠ id) (items st)) (form st) st.
End DigitalMandiPage.

(** The submission passes the check of [addItem]. *)
Definition required_fields_present (f : Form) : Prop :=
  crop f <> "" /\ location f <> "" /\ contact f <> "".

(** What one run of the persisting effect may have done to the storage:
    nothing (the write failed and was swallowed), or the record of the page
    now holds the text of [next]. *)
Definition persisted `{JSON (list Listing)} (next : list Listing)
    (before after : LocalStorage) : Prop :=
  after = before \/
  exists text, JSON_stringify next = Returned text /\
    ls_records after = <[mandi_key := text]> (ls_records before).

(** [setForm({ ...form, field: value })] for the whole form at once. *)
Definition setForm (f : Form) (st : MandiPage) : MandiPage :=
  {| items := items st; form := f; storage := storage st |}.

(** The collection shown under "Browse Listings". *)
Definition list_items (st : MandiPage) : list Listing := items st.

(** ** Disease detection ([detectDisease], [detectDiseaseWithBackend]) *)

#[local] Set Warnings "-register-all".
Inductive value : Type :=
  | VUndefined
  | VNull
  | VBool (b : bool)
  | VNumber (n : number)
  | VString (s : string)
  | VArray (elements : list value)
  | VObject (members : list (string * value)).

Fixpoint member (key : string) (members : list (string * value)) : option value :=
  match members with
  | [] => None
  | (k, v) :: rest => if String.eqb k key then Some v else member key rest
  end.

Definition TypeError : exn := Exn "TypeError" "Cannot read properties of null".

(** [r.key] for the keys read by the wrapper. *)
Definition get (r : value) (key : string) : outcome value :=
  match r with
  | VUndefined | VNull => Thrown TypeError
  | VObject members => Returned (default VUndefined (member key members))
  | _ => Returned VUndefined
  end.

(** What [await fetch(url, ..)] followed by [res.json()] can do. *)
Inductive FetchResult : Type :=
  | fetch_rejected (e : exn)
  | fetch_response (ok : bool) (json : outcome value).

Definition File : Type := string.
Definition Fetch : Type := string -> File -> FetchResult.

Definition API_BASE_URL : string := "http://localhost:5000/api".

Definition crop_disease_url : string := API_BASE_URL +:+ "/crop-disease".

Definition detectDisease (fetch : Fetch) (file : File) : outcome value :=
  match fetch crop_disease_url file with
  | fetch_rejected e => Thrown e
  | fetch_response ok json =>
      if negb ok then Thrown (Exn "Error" "Detection failed") else json
  end.

Record Detection := { name : value; remedy : value; confidence : value }.

Definition fallback : Detection :=
  {| name := VString "Unavailable";
     remedy := VString "Backend not reachable.";
     confidence := VNumber (Fin 0) |}.

Definition detectDiseaseWithBackend (fetch : Fetch) (file : File) : outcome Detection :=
  try_catch
    (r ← detectDisease fetch file;
     disease ← get r "disease";
     remedy ← get r "remedy";
     confidence ← get r "confidence";
     mret {| name := disease; remedy := remedy; confidence := confidence |})
    (fun _ => mret fallback).

(** ** Sample environments

    Concrete browsers, stores and backends at which the statements below
    are instantiated. *)

Definition sample_browser : Browser :=
  {| crypto_randomUUID := Some (Returned "3b241101-e2bb-4255-8caf-4136c566a962");
     Math_random_text := "0.4fzyo82mvyr";
     Date_now := 1762150000000 |}.

Definition empty_storage : LocalStorage :=
  {| ls_denied := false; ls_quota := 5000000%N; ls_records := ∅ |}.

Definition corrupt_storage : LocalStorage :=
  {| ls_denied := false; ls_quota := 5000000%N;
     ls_records := {[ mandi_key := "[{oops" ]} |}.

Definition fresh_page : MandiPage :=
  {| items := []; form := initial; storage := empty_storage |}.

Definition blank_contact : Form :=
  {| crop := "Onion"; qty := Fin 4; price := Fin 1400;
     location := "Cuttack"; contact := "" |}.

Definition offline : Fetch :=
  fun _ _ => fetch_rejected (Exn "TypeError" "Failed to fetch").

Definition server_error : Fetch :=
  fun _ _ => fetch_response false (Thrown SyntaxError).

Definition blight_reply : list (string * value) :=
  [("disease", VString "Late blight");
   ("remedy", VString "Remove infected leaves.");
   ("confidence", VNumber (Fin (87 # 100)))].

Definition healthy_backend : Fetch := fun url _ =>
  if String.eqb url "http://localhost:5000/api/crop-disease"
  then fetch_response true (Returned (VObject blight_reply))
  else fetch_response false (Thrown SyntaxError).

(** ** More arithmetic on numbers *)

Definition num_add (a b : number) : number :=
  match a, b with
  | Fin x, Fin y => Fin (x + y)
  | _, _ => NaN
  end.

(** [a > b]; false as soon as one side is [NaN]. *)
Definition num_gt (a b : number) : bool :=
  match a, b with
  | Fin x, Fin y => negb (Qle_bool x y)
  | _, _ => false
  end.

(** [Math.round] and [Math.max] on numbers. *)
Definition num_round (a : number) : number :=
  match a with
  | Fin x => Fin (inject_Z (Math_round x))
  | NaN => NaN
  end.

Definition num_max (a b : number) : number :=
  match a, b with
  | Fin x, Fin y => Fin (if Qle_bool x y then y else x)
  | _, _ => NaN
  end.

(** A number, as a condition: [0] and [NaN] are falsy. *)
Definition num_truthy (a : number) : bool :=
  match a with
  | Fin x => negb (Qeq_bool x 0)
  | NaN => false
  end.

(** ** Object literals used as tables *)

(** The names every object literal inherits from [Object.prototype]. *)
Definition Object_prototype_keys : list string :=
  ["constructor"; "__defineGetter__"; "__defineSetter__"; "hasOwnProperty";
   "__lookupGetter__"; "__lookupSetter__"; "isPrototypeOf"; "propertyIsEnumerable";
   "toString"; "valueOf"; "__proto__"; "toLocaleString"].

(** The result of [table[key]] on an object literal: a member of the
    literal, a member inherited from [Object.prototype] (a function or an
    object, never a number), or [undefined]. *)
Inductive property (A : Type) : Type :=
  | Own (a : A)
  | Inherited
  | Absent.
Arguments Own {A} a.
Arguments Inherited {A}.
Arguments Absent {A}.

Definition object_get {A} (table : gmap string A) (key : string) : property A :=
  match table !! key with
  | Some a => Own a
  | None => if bool_decide (key ∈ Object_prototype_keys) then Inherited else Absent
  end.

(** ** Mock mandi prices ([generateMockMandiData], [MarketInsightsPage]) *)

(** What the browser answers while the series is generated: [Math.sin],
    the successive draws of [Math.random()], and the en-GB text of the date
    a number of days before today. *)
Record MandiEnv := {
  Math_sin : Q -> Q;
  Math_random : nat -> Q;
  date_label : nat -> string
}.

Definition mandi_base : gmap string Q :=
  {[ "Wheat" := 2200%Q; "Rice" := 2400%Q; "Maize" := 1900%Q;
     "Tomato" := 1200%Q; "Onion" := 1400%Q ]}.

(** [table[crop] || 2000]. For an inherited member the later sum
    [base + noise] is a text whose rounding is [NaN]; [NaN] stands for it. *)
Definition base_price (crop : string) : number :=
  match object_get mandi_base crop with
  | Own b => if num_truthy (Fin b) then Fin b else Fin 2000
  | Inherited => NaN
  | Absent => Fin 2000
  end.

Definition days : nat := 14.

Definition noise (env : MandiEnv) (i : nat) : Q :=
  (Math_sin env (inject_Z (Z.of_nat i) / 2) * 60 + (Math_random env i - (1 # 2)) * 80)%Q.

(** One point of the series, [{ date, price }]. *)
Record PricePoint := { point_date : string; point_price : number }.

Definition generateMockMandiData (env : MandiEnv) (crop : string) : list PricePoint :=
  let base := base_price crop in
  (fun i =>
     {| point_date := date_label env (days - 1 - i);
        point_price := num_max (Fin 900) (num_round (num_add base (Fin (noise env i)))) |})
  <$> seq 0 days.

(** One price of the series when the base price is the whole number [b]:
    [Math.max(900, Math.round(b + noise))]. *)
Definition price_at (env : MandiEnv) (b : Z) (i : nat) : Z :=
  Z.max 900 (b + Math_round (noise env i)).

(** [data[data.length - 1]?.price || 0] *)
Definition latest (data : list PricePoint) : number :=
  match data !! (List.length data - 1)%nat with
  | Some point => if num_truthy (point_price point) then point_price point else Fin 0
  | None => Fin 0
  end.

(** The verdict shown on the page: [DecisionMeter] on the price column. *)
Definition market_verdict (data : list PricePoint) : string :=
  DecisionMeter (point_price <$> data).

(** ** Weather advisory ([mockWeather], [WeatherAdvisoryPage]) *)

(** A member that is missing reads as [undefined], here [None]. *)
Record Weather := {
  temp : option number;
  humidity : option number;
  wind : option number;
  rainNext48h : option bool
}.

Definition preset (t h w : Z) (rain : bool) : Weather :=
  {| temp := Some (Fin (inject_Z t)); humidity := Some (Fin (inject_Z h));
     wind := Some (Fin (inject_Z w)); rainNext48h := Some rain |}.

Definition presets : gmap string Weather :=
  {[ "Delhi" := preset 34 48 10 true;
     "Mumbai" := preset 30 76 12 true;
     "Bhubaneswar" := preset 31 72 9 false;
     "Bengaluru" := preset 27 60 8 false ]}.

(** [presets[city] || { .., rainNext48h: Math.random() > 0.5 }]; an
    inherited member is truthy and has none of the four members. *)
Definition mockWeather (random : Q) (city : string) : Weather :=
  match object_get presets city with
  | Own w => w
  | Inherited => {| temp := None; humidity := None; wind := None; rainNext48h := None |}
  | Absent =>
      {| temp := Some (Fin 32); humidity := Some (Fin 55); wind := Some (Fin 11);
         rainNext48h := Some (num_gt (Fin random) (Fin (1 # 2))) |}
  end.

Definition rain_advice : string :=
  "Heavy rain likely: avoid pesticide/fertilizer spray for 48h.".
Definition humidity_advice : string :=
  "High humidity: monitor for fungal disease; ensure field ventilation.".
Definition wind_advice : string :=
  "Windy conditions: stake tall crops to prevent lodging.".
Definition stable_advice : string :=
  "Conditions stable. Proceed with routine irrigation and weeding.".

(** The [useMemo] body of [advice]; [data] is [null] before the first load. *)
Definition advice (data : option Weather) : list string :=
  match data with
  | None => []
  | Some data =>
      let arr := [] in
      let arr := if default false (rainNext48h data) then arr ++ [rain_advice] else arr in
      let arr := if num_gt (to_number (humidity data)) (Fin 70)
                 then arr ++ [humidity_advice] else arr in
      let arr := if num_gt (to_number (wind data)) (Fin 12)
                 then arr ++ [wind_advice] else arr in
      if (List.length arr =? 0)%nat then arr ++ [stable_advice] else arr
  end.

(** ** Knowledge hub ([smallExpert], [KnowledgeHubPage]) *)

(** [String.prototype.toLowerCase] and [String.prototype.trim] are the
    browser's. *)
Class StringOps := {
  toLowerCase : string -> string;
  trim : string -> string
}.

(** [s.includes(sub)] *)
Fixpoint includes (s sub : string) : bool :=
  String.prefix sub s ||
  match s with
  | EmptyString => false
  | String _ rest => includes rest sub
  end.

Definition wheat_answer : string :=
  "For wheat: apply 120:60:40 NPK per acre split into 3 doses; avoid urea before expected rain.".
Definition scheme_answer : string :=
  "PM-KISAN provides ₹6,000/year in three installments. Check eligibility on the official portal; link Aadhaar to bank account.".
Definition spray_answer : string :=
  "Spray in early mornings/evenings, avoid windy/rainy hours, follow label dose, and use PPE (mask, gloves).".
Definition onion_answer : string :=
  "Cure onions 10–15 days in shade, store in well-ventilated crates at 25–30°C to reduce rotting.".
Definition generic_answer : string :=
  "Thanks! This is a demo chatbot. In production, connect to your LLM endpoint (OpenAI/HF) for rich answers in local languages.".
Definition greeting : string :=
  "Namaste! Ask me about farming techniques, schemes, or fertilizers.".

Definition smallExpert `{StringOps} (text : string) : string :=
  let t := toLowerCase text in
  if includes t "wheat" && includes t "fertilizer" then wheat_answer
  else if includes t "pm kisan" || includes t "scheme" then scheme_answer
  else if includes t "pesticide" && includes t "spray" then spray_answer
  else if includes t "onion" && includes t "storage" then onion_answer
  else "".

Record Msg := { msg_role : string; msg_text : string }.

(** The page: the input [q], the transcript [msgs], and the questions of
    the calls of [reply] that are still in [await wait(400)], oldest first
    (equal delays expire in the order they were set). *)
Record ChatPage := {
  chat_q : string;
  chat_msgs : list Msg;
  chat_waiting : list string
}.

Definition KnowledgeHubPage : ChatPage :=
  {| chat_q := "";
     chat_msgs := [{| msg_role := "assistant"; msg_text := greeting |}];
     chat_waiting := [] |}.

(** [setQ(e.target.value)] *)
Definition setQ (text : string) (st : ChatPage) : ChatPage :=
  {| chat_q := text; chat_msgs := chat_msgs st; chat_waiting := chat_waiting st |}.

(** [reply], up to its [await]. *)
Definition reply_send `{StringOps} (st : ChatPage) : ChatPage :=
  if negb (truthy (trim (chat_q st))) then st
  else
    {| chat_q := "";
       chat_msgs := chat_msgs st ++ [{| msg_role := "user"; msg_text := chat_q st |}];
       chat_waiting := chat_waiting st ++ [chat_q st] |}.

(** [smallExpert(q) || "Thanks! .."] *)
Definition answer `{StringOps} (question : string) : string :=
  let a := smallExpert question in
  if truthy a then a else generic_answer.

(** The oldest pending [reply] resumes after its [await]. *)
Definition reply_resume `{StringOps} (st : ChatPage) : ChatPage :=
  match chat_waiting st with
  | [] => st
  | question :: rest =>
      {| chat_q := chat_q st;
         chat_msgs := chat_msgs st ++
                      [{| msg_role := "assistant"; msg_text := answer question |}];
         chat_waiting := rest |}
  end.

Inductive chat_event : Type :=
  | Typed (text : string)
  | Sent
  | TimerExpired.

Definition chat_step `{StringOps} (st : ChatPage) (e : chat_event) : ChatPage :=
  match e with
  | Typed text => setQ text st
  | Sent => reply_send st
  | TimerExpired => reply_resume st
  end.

Definition chat_run `{StringOps} (events : list chat_event) : ChatPage :=
  foldl chat_step KnowledgeHubPage events.

(** The texts of the messages of one role, in order. *)
Definition texts_of (role : string) (msgs : list Msg) : list string :=
  msg_text <$> filter (fun m => msg_role m = role) msgs.

(** ** Crop doctor ([CropDoctorPage]) *)

Record DoctorPage := {
  file : option File;
  preview : string;
  loading : bool;
  result : option Detection
}.


(** [onFile], up to its [await]; [f] is [None] when no file was picked. *)
Definition onFile_begin (createObjectURL : File -> string) (f : option File)
    (st : DoctorPage) : DoctorPage :=
  match f with
  | None => st
  | Some f =>
      {| file := Some f; preview := createObjectURL f; loading := true;
         result := result st |}
  end.

(** [onFile] after its [await], on the state of that moment. *)
Definition onFile_end (fetch : Fetch) (f : File) (st : DoctorPage) : outcome DoctorPage :=
  res ← detectDiseaseWithBackend fetch f;
  mret {| file := file st; preview := preview st; loading := false;
          result := Some res |}.



(** The button on the preview. *)
Definition clear_preview (st : DoctorPage) : DoctorPage :=
  {| file := None; preview := ""; loading := loading st; result := None |}.

(** ** Health check ([health]) *)

Definition FetchGet : Type := string -> FetchResult.

Definition health (fetch : FetchGet) : outcome value :=
  match fetch (API_BASE_URL +:+ "/health") with
  | fetch_rejected e => Thrown e
  | fetch_response _ json => json
  end.

(** ** Navigation ([TopNav], [HomePage], [App]) *)

(** [s.split(sep)] for a separator of one character. *)
Fixpoint split (sep : ascii) (s : string) : list string :=
  match s with
  | EmptyString => [""]
  | String c rest =>
      if Ascii.eqb c sep then "" :: split sep rest
      else match split sep rest with
           | [] => [String c ""]
           | word :: words => String c word :: words
           end
  end.

(** [s.replace(from, to)] for single characters: the first occurrence only. *)
Fixpoint replace_first (from to : ascii) (s : string) : string :=
  match s with
  | EmptyString => ""
  | String c rest =>
      if Ascii.eqb c from then String to rest else String c (replace_first from to rest)
  end.

(** The keys and labels of [items] in [TopNav]. *)
Definition TopNav_items : list (string * string) :=
  [("home", "Home"); ("crop-doctor", "Crop Doctor"); ("market", "Market Insights");
   ("mandi", "Digital Mandi"); ("weather", "Weather Advisory");
   ("chat", "Knowledge Hub"); ("finance", "Finance Tools")].

(** The keys and labels of the menu of small screens. *)
Definition TopNav_menu : list (string * string) :=
  (fun k => (k, replace_first "-" " " k))
  <$> split " " "home crop-doctor market mandi weather chat finance".

(** The arguments of [go] in [HomePage]: the six cards, then the two buttons. *)
Definition HomePage_targets : list string :=
  ["crop-doctor"; "market"; "mandi"; "weather"; "chat"; "finance";
   "crop-doctor"; "market"].

Inductive page : Type :=
  | page_home | page_crop_doctor | page_market | page_mandi
  | page_weather | page_chat | page_finance.

(** The children of [<main>]: one conditional per page. *)
Definition App_main (tab : string) : list page :=
  (if String.eqb tab "home" then [page_home] else []) ++
  (if String.eqb tab "crop-doctor" then [page_crop_doctor] else []) ++
  (if String.eqb tab "market" then [page_market] else []) ++
  (if String.eqb tab "mandi" then [page_mandi] else []) ++
  (if String.eqb tab "weather" then [page_weather] else []) ++
  (if String.eqb tab "chat" then [page_chat] else []) ++
  (if String.eqb tab "finance" then [page_finance] else []).

(** The state of [App]: the tab and [sessionStorage] (the same interface
    as [localStorage]). *)
Record AppState := { tab : string; session : LocalStorage }.

Definition tab_key : string := "tab".

(** The second effect: [try { sessionStorage.setItem("tab", tab) } catch {}]. *)
Definition persist_tab (ss : LocalStorage) (tab : string) : outcome LocalStorage :=
  try_catch (setItem ss tab_key tab) (fun _ => mret ss).

(** Mount. The first effect reads the stored tab outside any [try]; the
    second effect then runs for the initial tab, and once more after the
    render caused by [setTab(t)] when [t] is another tab. *)
Definition App (ss : LocalStorage) : outcome AppState :=
  t ← getItem ss tab_key;
  ss1 ← persist_tab ss "home";
  match t with
  | Some t =>
      if truthy t && negb (String.eqb t "home")
      then ss2 ← persist_tab ss1 t; mret {| tab := t; session := ss2 |}
      else mret {| tab := "home"; session := ss1 |}
  | None => mret {| tab := "home"; session := ss1 |}
  end.

(** [setTab(key)] from a button; the effect runs when the tab changed. *)
Definition setTab (key : string) (st : AppState) : outcome AppState :=
  if String.eqb key (tab st) then mret st
  else ss ← persist_tab (session st) key; mret {| tab := key; session := ss |}.

(** A write by the persisting effect fails: the storage is refused,
    [JSON.stringify] throws, or the text is over the quota. *)
Definition write_fails {A} `{JSON A} (ls : LocalStorage) (state : A) : Prop :=
  ls_denied ls = true \/
  throws (JSON_stringify state) \/
  exists text, JSON_stringify state = Returned text /\
    (ls_quota ls < N.of_nat (String.length text))%N.

(** ** More sample environments *)

(** A stand-in for the browser's JSON functions that knows one non-empty
    collection: it writes a non-empty collection as [text] and reads
    [text] back as [saved]; the empty collection is the text of the empty
    array. *)
Definition one_collection_JSON (saved : list Listing) (text : string)
    : JSON (list Listing) := {|
  JSON_parse s :=
    if String.eqb s text then Returned saved
    else if String.eqb s "[]" then Returned []
    else Thrown SyntaxError;
  JSON_stringify l :=
    match l with
    | [] => Returned "[]"
    | _ => Returned text
    end
|}.

Definition tomato_listing : Listing :=
  make_listing "3b241101-e2bb-4255-8caf-4136c566a962" 1762150000000 initial.

Definition tomato_text : string := "[tomato-listing]".

Definition tiny_storage : LocalStorage :=
  {| ls_denied := false; ls_quota := 4%N; ls_records := ∅ |}.

Definition refused_storage : LocalStorage :=
  {| ls_denied := true; ls_quota := 5000000%N; ls_records := ∅ |}.

(** A page that shows one listing, saved under the key of the page. *)
Definition tomato_storage : LocalStorage :=
  {| ls_denied := false; ls_quota := 5000000%N;
     ls_records := {[ mandi_key := tomato_text ]} |}.

Definition tomato_page : MandiPage :=
  {| items := [tomato_listing]; form := initial; storage := tomato_storage |}.

(** Sine at the fourteen arguments [i / 2] of the series, to three
    decimals, and zero elsewhere; with draws that walk through [0, 1). *)
Definition sine_table : list Q :=
  [0; 479 # 1000; 841 # 1000; 997 # 1000; 909 # 1000; 598 # 1000; 141 # 1000;
   -351 # 1000; -757 # 1000; -978 # 1000; -959 # 1000; -706 # 1000; -279 # 1000;
   215 # 1000]%Q.

Definition sample_dates : list string :=
  ["03/11/2026"; "02/11/2026"; "01/11/2026"; "31/10/2026"; "30/10/2026";
   "29/10/2026"; "28/10/2026"; "27/10/2026"; "26/10/2026"; "25/10/2026";
   "24/10/2026"; "23/10/2026"; "22/10/2026"; "21/10/2026"].

Definition sample_mandi_env : MandiEnv :=
  {| Math_sin := fun x => default 0%Q (sine_table !! Z.to_nat (Qfloor (x * 2)));
     Math_random := fun i => (inject_Z (Z.of_nat (i * 5 mod 14)) / 14)%Q;
     date_label := fun k => default "" (sample_dates !! k) |}.

(** [sub] occurs in [s] as a run of consecutive characters. *)
Definition occurs (sub s : string) : Prop :=
  exists before after, s = before +:+ sub +:+ after.

(** Lower case for the letters A to Z, other characters unchanged, and
    removal of leading and trailing blanks: the browser's functions on
    text without characters beyond ASCII. *)
Definition ascii_lower (c : ascii) : ascii :=
  let n := N_of_ascii c in
  if ((65 <=? n) && (n <=? 90))%N then ascii_of_N (n + 32) else c.

Fixpoint string_lower (s : string) : string :=
  match s with
  | EmptyString => ""
  | String c rest => String (ascii_lower c) (string_lower rest)
  end.

Definition is_blank (c : ascii) : bool :=
  let n := N_of_ascii c in ((n =? 32) || ((9 <=? n) && (n <=? 13)))%N.

Fixpoint drop_blanks (s : string) : string :=
  match s with
  | EmptyString => ""
  | String c rest => if is_blank c then drop_blanks rest else s
  end.

Definition string_rev (s : string) : string :=
  string_of_list_ascii (rev (list_ascii_of_string s)).

Definition ascii_StringOps : StringOps :=
  {| toLowerCase := string_lower;
     trim := fun s => string_rev (drop_blanks (string_rev (drop_blanks s))) |}.


(** A server that answers 503 with a JSON body. *)
Definition unhealthy_server : FetchGet :=
  fun _ => fetch_response false
             (Returned (VObject [("status", VString "starting")])).

Definition stored_tab (t : string) : LocalStorage :=
  {| ls_denied := false; ls_quota := 5000000%N; ls_records := {[ tab_key := t ]} |}.

(** [crypto.randomUUID] is missing or throws, so [genId] takes its
    fallback. *)
Definition no_randomUUID (b : Browser) : Prop :=
  crypto_randomUUID b = None \/ exists e, crypto_randomUUID b = Some (Thrown e).

Definition old_browser (now : Z) : Browser :=
  {| crypto_randomUUID := None; Math_random_text := "0.4fzyo82mvyr"; Date_now := now |}.

(** * Properties *)

(** ** EMI calculator *)

Section EMI_facts.
Local Open Scope float_scope.
Variable Math_pow : float -> float -> float.



Lemma emi_zero_monthly_rate (P r n : float) :
  (r / 12 / 100 =? 0) = true -> emi (EMICalc Math_pow P r n) = P / n.
Proof. intros E. unfold EMICalc. cbn [emi]. rewrite E. reflexivity. Qed.

Lemma emi_other_monthly_rate (P r n : float) :
  (r / 12 / 100 =? 0) = false ->
  emi (EMICalc Math_pow P r n) =
    let m := r / 12 / 100 in
    P * m * Math_pow (1 + m) n / (Math_pow (1 + m) n - 1).
Proof. intros E. unfold EMICalc. cbn [emi]. rewrite E. reflexivity. Qed.

(** C1 (as amended). In double precision, with [m = r / 12 / 100]: the
    installment computed by [EMICalc] is [P / n] when [m] is zero and
    [P m (1+m)^n / ((1+m)^n - 1)] otherwise; the total payment is that
    unrounded installment times [n] and the total interest is the total
    payment minus [P]; each of the three is rounded to the nearest unit
    only where it is displayed. For a rate at which [r / 12 / 100] and
    [r / 1200] are the same double, the installment is the reference
    one. *)
Theorem EMICalc_reference (P r n : float) :
  let v := EMICalc Math_pow P r n in
  let m := r / 12 / 100 in
  emi v = installment_at Math_pow P m n /\
  ((m =? 0) = true -> emi v = P / n) /\
  ((m =? 0) = false ->
   emi v = P * m * Math_pow (1 + m) n / (Math_pow (1 + m) n - 1)) /\
  total v = emi v * n /\
  interest v = emi v * n - P /\
  EMICalc_render Math_pow P r n =
    {| shown_emi := Math_round_double (emi v);
       shown_interest := Math_round_double (emi v * n - P);
       shown_total := Math_round_double (emi v * n) |} /\
  (r / 12 / 100 = r / 1200 -> emi v = installment_reference Math_pow P r n).
Proof.
  intros v m.
  split; [reflexivity|].
  split; [apply emi_zero_monthly_rate|].
  split; [apply emi_other_monthly_rate|].
  split; [reflexivity|]. split; [reflexivity|]. split; [reflexivity|].
  intros E. unfold installment_reference. rewrite <- E. reflexivity.
Qed.


End EMI_facts.

#[local] Set Warnings "-inexact-float".

(** [Math_round_double] at some arguments, as [Math.round] answers. *)
Example Math_round_double_samples :
  map Math_round_double
    [2.5; -2.5; 1.25; -0.3; -0.5; -0.50000001; 0.49999999999999994;
     4503599627370495.5; 9007199254740993; -0; nan; infinity]%float =
    [3; -2; 1; -0; -0; -1; 0; 4503599627370496; 9007199254740992; -0; nan;
     infinity]%float.
Proof. vm_compute. reflexivity. Qed.

(** The rows for some loans, the power taken by repeated multiplication. *)
Example EMICalc_render_samples :
  (EMICalc_render product_pow 300 2 1 =
     {| shown_emi := 300; shown_interest := 0; shown_total := 300 |} /\
   EMICalc_render product_pow 100000 0 11 =
     {| shown_emi := 9091; shown_interest := -0; shown_total := 100000 |} /\
   total (EMICalc product_pow 100000 0 11) = 99999.999999999985 /\
   EMICalc_render product_pow 100000 1e-12 24 =
     {| shown_emi := 3909; shown_interest := -6175; shown_total := 93825 |} /\
   EMICalc_render product_pow 100000 1e-14 24 =
     {| shown_emi := infinity; shown_interest := infinity;
        shown_total := infinity |})%float.
Proof. vm_compute. repeat split. Qed.

Lemma EMICalc_reference_witness :
  let v := EMICalc product_pow 100000 10 24 in
  (emi v = installment_reference product_pow 100000 10 24 /\
   total v = emi v * 24 /\
   interest v = emi v * 24 - 100000 /\
   EMICalc_render product_pow 100000 10 24 =
     {| shown_emi := 4614; shown_interest := 10748; shown_total := 110748 |})%float.
Proof.
  intros v.
  destruct (EMICalc_reference product_pow 100000 10 24)
    as (_ & _ & _ & Ht & Hi & Hrows & Href).
  split; [apply Href; reflexivity|]. split; [exact Ht|]. split; [exact Hi|].
  rewrite Hrows. vm_compute. reflexivity.
Defined.

(** C1 as stated fails. For a principal of 1000.5 at rate zero over two
    months (no power is taken on this branch) the rows show 500, 0 and
    1001: the total payment shown is neither the shown installment times 2
    (1000) nor the unrounded installment times 2 (1000.5), and the interest
    shown is not the shown total minus the principal (0.5). At the state
    the calculator opens with (100000 at 10 percent over 24 months), with
    the power taken by repeated multiplication, the rows show 4614, 10748
    and 110748, while 4614 * 24 = 110736. Besides, [r / 12 / 100] and
    [r / 1200] are different doubles at [r = 2]. *)
Lemma EMI_outputs_differ_from_specified :
  ((forall Math_pow,
      EMICalc_render Math_pow 1000.5 0 2 =
        {| shown_emi := 500; shown_interest := 0; shown_total := 1001 |} /\
      ~ EMI_outputs_as_specified Math_pow 1000.5 0 2
          (EMICalc_render Math_pow 1000.5 0 2)) /\
   (EMICalc_render product_pow 100000 10 24 =
      {| shown_emi := 4614; shown_interest := 10748; shown_total := 110748 |} /\
    ~ EMI_outputs_as_specified product_pow 100000 10 24
        (EMICalc_render product_pow 100000 10 24)) /\
   (2 / 12 / 100 =? 2 / 1200) = false)%float.
Proof.
  split; [|split].
  - intros Math_pow. split; [reflexivity|].
    intros (_ & [Htot|Htot] & _); vm_compute in Htot; discriminate.
  - split; [vm_compute; reflexivity|].
    intros (_ & [Htot|Htot] & _); vm_compute in Htot; discriminate.
  - reflexivity.
Qed.



(** ** Yield calculator *)

Section Yield_facts.

(** The keys of [baseYield] are the five crops of the source table. *)
Lemma baseYield_supported (crop : string) :
  is_Some (baseYield !! crop) <-> crop ∈ ["Wheat"; "Rice"; "Maize"; "Tomato"; "Onion"].
Proof.
  unfold baseYield.
  rewrite !lookup_insert_is_Some', lookup_singleton_is_Some.
  rewrite !elem_of_cons, elem_of_nil. intuition congruence.
Qed.




(** C7 as stated fails: "Barley" is not a key of the table, and the
    calculation returns (with [NaN] for both amounts) instead of failing
    with an InvalidArgument error. *)
Lemma unknown_crop_is_not_an_error :
  baseYield !! "Barley" = None /\
  YieldCalc "Barley" (Fin 1) (Fin 1) = Returned {| yieldQtl := NaN; revenue := NaN |} /\
  ~ fails_with_InvalidArgument (YieldCalc "Barley" (Fin 1) (Fin 1)).
Proof.
  split; [reflexivity|]. split; [reflexivity|].
  intros [msg Hthrown]. discriminate Hthrown.
Qed.

(** C7 (as amended). For every crop key that is not in the base-yield
    table the yield calculation does not fail: it returns, and both the
    expected yield and the approximate revenue are [NaN]. *)
Theorem YieldCalc_unknown_crop (crop : string) (area factor : number) :
  baseYield !! crop = None ->
  YieldCalc crop area factor = Returned {| yieldQtl := NaN; revenue := NaN |}.
Proof. intros Hb. unfold YieldCalc. rewrite Hb. reflexivity. Qed.

Lemma YieldCalc_unknown_crop_witness :
  YieldCalc "Barley" (Fin 2) (Fin (9 # 10)) = Returned {| yieldQtl := NaN; revenue := NaN |}.
Proof. apply (YieldCalc_unknown_crop "Barley"). reflexivity. Defined.

End Yield_facts.

(** ** Trend meter *)

Section Trend_facts.

Lemma slice_last_lookup {A} (k i : nat) (a : list A) :
  slice_last k a !! i = a !! (List.length a - k + i)%nat.
Proof. unfold slice_last. apply lookup_drop. Qed.

Lemma trend_short (series : list number) :
  (List.length series < 4)%nat -> trend series = Fin 0.
Proof.
  intros Hlen. unfold trend.
  destruct (Nat.ltb_spec (List.length series) 4) as [_|Hge]; [reflexivity | lia].
Qed.

(** With four samples or more, [last[0]] and [last[3]] of the trailing
    window are the samples at [length - 4] and [length - 1]. *)
Lemma trend_window (qs : list Q) (first last : Q) :
  (4 <= List.length qs)%nat ->
  qs !! (List.length qs - 4)%nat = Some first ->
  qs !! (List.length qs - 1)%nat = Some last ->
  trend (Fin <$> qs) = Fin (inject_Z (Z.sgn (Qnum (last - first)))).
Proof.
  intros Hlen Hfirst Hlast. unfold trend.
  rewrite length_fmap.
  destruct (Nat.ltb_spec (List.length qs) 4) as [Hlt|_]; [lia|].
  cbv zeta. rewrite !slice_last_lookup.
  rewrite length_fmap, !list_lookup_fmap.
  replace (List.length qs - 4 + 3)%nat with (List.length qs - 1)%nat by lia.
  replace (List.length qs - 4 + 0)%nat with (List.length qs - 4)%nat by lia.
  rewrite Hfirst, Hlast. reflexivity.
Qed.

Lemma Qnum_minus_pos (a b : Q) : (0 < Qnum (b - a))%Z <-> (a < b)%Q.
Proof. unfold Qlt. destruct a, b. cbn. lia. Qed.

Lemma Qnum_minus_neg (a b : Q) : (Qnum (b - a) < 0)%Z <-> (b < a)%Q.
Proof. unfold Qlt. destruct a, b. cbn. lia. Qed.

Lemma Qnum_minus_zero (a b : Q) : Qnum (b - a) = 0%Z <-> (a == b)%Q.
Proof. unfold Qeq. destruct a, b. cbn. lia. Qed.

(** C3 (as amended). For every series of numbers: with fewer than 4
    samples the meter reads "Neutral"; with at least 4 it compares the last
    sample with the one 3 positions earlier and reads "Hold (Uptrend)" when
    the last is greater, "Neutral" when they are equal and
    "Sell Soon (Downtrend)" when the last is smaller. In particular
    [10,10,10,10] reads "Neutral", [10,10,10,20] reads "Hold (Uptrend)" and
    [20,10,10,10] reads "Sell Soon (Downtrend)". *)
Theorem DecisionMeter_trend (qs : list Q) :
  ((List.length qs < 4)%nat -> DecisionMeter (Fin <$> qs) = "Neutral") /\
  (forall first last : Q,
      (4 <= List.length qs)%nat ->
      qs !! (List.length qs - 4)%nat = Some first ->
      qs !! (List.length qs - 1)%nat = Some last ->
      ((first < last)%Q -> DecisionMeter (Fin <$> qs) = "Hold (Uptrend)") /\
      ((first == last)%Q -> DecisionMeter (Fin <$> qs) = "Neutral") /\
      ((last < first)%Q -> DecisionMeter (Fin <$> qs) = "Sell Soon (Downtrend)")) /\
  DecisionMeter (Fin <$> [10; 10; 10; 10]%Q) = "Neutral" /\
  DecisionMeter (Fin <$> [10; 10; 10; 20]%Q) = "Hold (Uptrend)" /\
  DecisionMeter (Fin <$> [20; 10; 10; 10]%Q) = "Sell Soon (Downtrend)".
Proof.
  split; [|split; [|split; [|split]; reflexivity]].
  - intros Hlen. unfold DecisionMeter.
    rewrite trend_short by (rewrite length_fmap; exact Hlen). reflexivity.
  - intros first last Hlen Hfirst Hlast.
    unfold DecisionMeter. rewrite (trend_window qs first last Hlen Hfirst Hlast).
    cbn [num_gt0 num_lt0 inject_Z Qnum].
    pose proof (Qnum_minus_pos first last) as Hp.
    pose proof (Qnum_minus_neg first last) as Hn.
    pose proof (Qnum_minus_zero first last) as Hz.
    split; [|split]; intros Hcmp.
    + apply Hp in Hcmp.
      destruct (Z.ltb_spec 0 (Z.sgn (Qnum (last - first)))); [reflexivity | lia].
    + apply Hz in Hcmp. rewrite Hcmp. reflexivity.
    + apply Hn in Hcmp.
      destruct (Z.ltb_spec 0 (Z.sgn (Qnum (last - first)))); [lia|].
      destruct (Z.ltb_spec (Z.sgn (Qnum (last - first))) 0); [reflexivity | lia].
Qed.

Lemma DecisionMeter_trend_witness :
  DecisionMeter (Fin <$> [5; 7]%Q) = "Neutral" /\
  DecisionMeter (Fin <$> [3; 40; 10; 10; 25]%Q) = "Sell Soon (Downtrend)".
Proof.
  split.
  - apply (proj1 (DecisionMeter_trend [5; 7]%Q)). cbn. lia.
  - apply (proj1 (proj2 (DecisionMeter_trend [3; 40; 10; 10; 25]%Q)) 40%Q 25%Q);
      [cbn; lia | reflexivity | reflexivity | reflexivity].
Defined.

(** C3 as stated fails on the labels: on [10,10,10,20] the meter reads
    "Hold (Uptrend)", not "Hold", and on [20,10,10,10] it does not read
    "Sell Soon". *)
Lemma DecisionMeter_label_differs :
  DecisionMeter (Fin <$> [10; 10; 10; 20]%Q) = "Hold (Uptrend)" /\
  DecisionMeter (Fin <$> [10; 10; 10; 20]%Q) <> "Hold" /\
  DecisionMeter (Fin <$> [20; 10; 10; 10]%Q) <> "Sell Soon".
Proof. split; [reflexivity|]. split; discriminate. Qed.

End Trend_facts.

(** ** The storage hook *)

Section Hook_facts.
Context {A : Type} `{JSON A}.

Lemma try_catch_returns {B} (body : outcome B) (b : B) :
  returns (try_catch body (fun _ => mret b)).
Proof. destruct body as [a|e]; [exists a | exists b]; reflexivity. Qed.

Lemma useLocalStorage_init_returns (ls : LocalStorage) (key : string) (initialValue : A) :
  returns (useLocalStorage_init ls key initialValue).
Proof. apply try_catch_returns. Qed.

Lemma useLocalStorage_init_denied (ls : LocalStorage) (key : string) (initialValue : A) :
  ls_denied ls = true ->
  useLocalStorage_init ls key initialValue = Returned initialValue.
Proof. intros Hd. unfold useLocalStorage_init, getItem. rewrite Hd. reflexivity. Qed.

Lemma useLocalStorage_init_missing (ls : LocalStorage) (key : string) (initialValue : A) :
  ls_records ls !! key = None ->
  useLocalStorage_init ls key initialValue = Returned initialValue.
Proof.
  intros Hm. unfold useLocalStorage_init, getItem.
  destruct (ls_denied ls); [reflexivity|]. cbn. rewrite Hm. reflexivity.
Qed.

Lemma useLocalStorage_init_corrupt (ls : LocalStorage) (key text : string)
    (initialValue : A) :
  ls_records ls !! key = Some text ->
  throws (JSON_parse text) ->
  useLocalStorage_init ls key initialValue = Returned initialValue.
Proof.
  intros Hs [e He]. unfold useLocalStorage_init, getItem.
  destruct (ls_denied ls); [reflexivity|]. cbn. rewrite Hs.
  destruct (truthy text); [rewrite He|]; reflexivity.
Qed.

(** The effect never throws; it leaves the storage as it was or replaces
    the record under [key] by the text of [state]. *)
Lemma useLocalStorage_effect_returns (ls : LocalStorage) (key : string) (state : A) :
  exists ls', useLocalStorage_effect ls key state = Returned ls' /\
    (ls' = ls \/
     exists text, JSON_stringify state = Returned text /\
       ls_denied ls' = ls_denied ls /\ ls_quota ls' = ls_quota ls /\
       ls_records ls' = <[key := text]> (ls_records ls)).
Proof.
  unfold useLocalStorage_effect, setItem, mbind, outcome_bind.
  destruct (JSON_stringify state) as [text|e]; [|cbn; eauto].
  destruct (ls_denied ls) eqn:Hd; [cbn; eauto|].
  destruct (ls_quota ls <? N.of_nat (String.length text))%N; [cbn; eauto|].
  eexists. split; [reflexivity|]. right. exists text. cbn. auto.
Qed.

End Hook_facts.

(** ** The listing board *)

Lemma truthy_nonempty (s : string) : truthy s = true <-> s <> "".
Proof.
  unfold truthy. destruct (String.eqb_spec s ""); cbn; split; congruence.
Qed.

Lemma truthy_empty (s : string) : truthy s = false <-> s = "".
Proof.
  unfold truthy. destruct (String.eqb_spec s ""); cbn; split; congruence.
Qed.


Lemma genId_fallback (b : Browser) :
  no_randomUUID b ->
  genId b = "id-" +:+ str_slice 2 9 (Math_random_text b) +:+ "-" +:+
            str_slice_last 5 (toString36 (Date_now b)).
Proof.
  intros [Hn|[e He]]; unfold genId; [rewrite Hn | rewrite He]; reflexivity.
Qed.


Section Mandi_facts.
Context `{JSON (list Listing)}.

Lemma setItems_returns (next : list Listing) (f : Form) (st : MandiPage) :
  exists st', setItems next f st = Returned st' /\
    items st' = next /\ form st' = f /\ persisted next (storage st) (storage st').
Proof.
  unfold setItems.
  destruct (useLocalStorage_effect_returns (storage st) mandi_key next)
    as (ls' & -> & Hls).
  eexists. split; [reflexivity|]. cbn. repeat split.
  destruct Hls as [->|(text & Ht & _ & _ & Hr)]; [left; reflexivity|].
  right. exists text. auto.
Qed.

Lemma addItem_rejects (b : Browser) (st : MandiPage) :
  crop (form st) = "" \/ location (form st) = "" \/ contact (form st) = "" ->
  addItem b st = Returned st.
Proof.
  intros Hempty. unfold addItem. cbv zeta.
  destruct Hempty as [E|[E|E]]; apply truthy_empty in E; rewrite E; cbn;
    rewrite ?orb_true_r; reflexivity.
Qed.

Lemma addItem_accepts (b : Browser) (st : MandiPage) :
  required_fields_present (form st) ->
  addItem b st =
    setItems (items st ++ [make_listing (genId b) (Date_now b) (form st)]) initial st.
Proof.
  intros (Hc & Hl & Hk). unfold addItem. cbv zeta.
  apply truthy_nonempty in Hc, Hl, Hk. rewrite Hc, Hl, Hk. reflexivity.
Qed.

Lemma addItem_appends (b : Browser) (st : MandiPage) :
  required_fields_present (form st) ->
  exists st', addItem b st = Returned st' /\
    items st' = items st ++ [make_listing (genId b) (Date_now b) (form st)] /\
    form st' = initial /\
    persisted (items st') (storage st) (storage st').
Proof.
  intros Hreq. rewrite (addItem_accepts b st Hreq).
  destruct (setItems_returns
              (items st ++ [make_listing (genId b) (Date_now b) (form st)]) initial st)
    as (st' & E & Hi & Hf & Hp).
  exists st'. rewrite Hi. auto.
Qed.

Lemma remove_returns (id : string) (st : MandiPage) :
  exists st', remove id st = Returned st' /\
    items st' = filter (fun i => l_id i ≠ id) (items st) /\
    form st' = form st /\
    persisted (items st') (storage st) (storage st').
Proof.
  unfold remove.
  destruct (setItems_returns (filter (fun i => l_id i ≠ id) (items st)) (form st) st)
    as (st' & E & Hi & Hf & Hp).
  exists st'. rewrite Hi. auto.
Qed.

Lemma filter_other_ids (id : string) (l : list Listing) :
  id ∉ l_id <$> l -> filter (fun i => l_id i ≠ id) l = l.
Proof.
  induction l as [|x l IH]; intros Habs; [reflexivity|].
  rewrite fmap_cons, not_elem_of_cons in Habs. destruct Habs as [Hx Hl].
  rewrite filter_cons, decide_True by congruence.
  f_equal. apply IH, Hl.
Qed.

(** [remove] of an id that no entry carries leaves the collection as it is. *)
Lemma remove_absent (id : string) (st : MandiPage) :
  id ∉ l_id <$> items st ->
  exists st', remove id st = Returned st' /\ items st' = items st.
Proof.
  intros Habs. destruct (remove_returns id st) as (st' & E & Hi & _ & _).
  exists st'. split; [exact E|]. rewrite Hi. apply filter_other_ids, Habs.
Qed.

(** C2. For every listing [L] whose crop, location and contact are not
    empty, from a store with no entry: after add(L) the collection has
    exactly one entry, equal to [L] on the submitted fields (its id and
    timestamp are the generated ones); after remove of that entry's id the
    collection is empty. *)
Theorem add_then_remove_round_trip (L : Form) (b : Browser) (st0 : MandiPage) :
  required_fields_present L ->
  list_items st0 = [] ->
  exists st1 entry st2,
    addItem b (setForm L st0) = Returned st1 /\
    list_items st1 = [entry] /\
    fields_of entry = L /\
    l_id entry = genId b /\ l_ts entry = Date_now b /\
    remove (l_id entry) st1 = Returned st2 /\
    list_items st2 = [].
Proof.
  intros HL Hempty.
  assert (Hreq : required_fields_present (form (setForm L st0))) by exact HL.
  pose proof (addItem_accepts b (setForm L st0) Hreq) as Hadd.
  destruct (setItems_returns
              (items (setForm L st0) ++ [make_listing (genId b) (Date_now b) L])
              initial (setForm L st0)) as (st1 & E1 & Hi1 & _ & _).
  cbn [setForm items form] in *. unfold list_items in *. rewrite Hempty in *.
  cbn [app] in *.
  destruct (remove_returns (genId b) st1) as (st2 & E2 & Hi2 & _ & _).
  exists st1, (make_listing (genId b) (Date_now b) L), st2.
  rewrite Hadd, E1, Hi1.
  repeat split; try reflexivity.
  - destruct L; reflexivity.
  - exact E2.
  - rewrite Hi2, Hi1. cbn [l_id make_listing].
    rewrite filter_cons, decide_False by (intros Hne; apply Hne; reflexivity).
    reflexivity.
Qed.



Lemma required_fields_dec (f : Form) :
  required_fields_present f \/ (crop f = "" \/ location f = "" \/ contact f = "").
Proof.
  unfold required_fields_present.
  destruct (decide (crop f = "")); [auto|].
  destruct (decide (location f = "")); [auto|].
  destruct (decide (contact f = "")); auto.
Qed.

(** C10. [addItem] checks the crop, the location and the contact only.
    For a submission in which those three are present, whatever its
    quantity and price (zero, negative or [NaN] included), the entry is
    appended and stores that quantity and that price; for a submission in
    which one of them is empty, whatever its quantity and price, nothing
    changes. *)
Theorem addItem_stores_any_quantity_and_price (b : Browser) (st : MandiPage)
    (quantity pricePerUnit : number) :
  let submitted := {| crop := crop (form st); qty := quantity; price := pricePerUnit;
                      location := location (form st); contact := contact (form st) |} in
  (required_fields_present (form st) ->
   exists st' entry,
     addItem b (setForm submitted st) = Returned st' /\
     items st' = items st ++ [entry] /\
     l_qty entry = quantity /\ l_price entry = pricePerUnit) /\
  (~ required_fields_present (form st) ->
   addItem b (setForm submitted st) = Returned (setForm submitted st)).
Proof.
  intros submitted. split.
  - intros Hreq.
    assert (Hreq' : required_fields_present (form (setForm submitted st))) by exact Hreq.
    destruct (addItem_appends b (setForm submitted st) Hreq') as (st' & E & Hi & _ & _).
    exists st', (make_listing (genId b) (Date_now b) submitted).
    split; [exact E|]. split; [exact Hi|]. split; reflexivity.
  - intros Hnot. apply addItem_rejects.
    destruct (required_fields_dec (form st)) as [Hreq|Hempty]; [contradiction|].
    exact Hempty.
Qed.

(** C9. Loading the persisted collection never throws: the initialiser of
    the hook returns for every storage and every behaviour of
    [JSON.parse]. When the record is missing, or its text fails to parse,
    the loaded collection is the empty default, and the page opens on
    it. *)
Theorem listing_load_fails_open (ls : LocalStorage) :
  returns (useLocalStorage_init ls mandi_key ([] : list Listing)) /\
  (ls_records ls !! mandi_key = None \/
   (exists text, ls_records ls !! mandi_key = Some text /\ throws (JSON_parse text)) ->
   useLocalStorage_init ls mandi_key [] = Returned [] /\
   exists st, DigitalMandiPage ls = Returned st /\ list_items st = []).
Proof.
  split; [apply useLocalStorage_init_returns|].
  intros Hrec.
  assert (E : useLocalStorage_init ls mandi_key ([] : list Listing) = Returned []).
  { destruct Hrec as [Hm|(text & Hs & Ht)].
    - apply useLocalStorage_init_missing, Hm.
    - apply (useLocalStorage_init_corrupt ls mandi_key text [] Hs Ht). }
  split; [exact E|].
  unfold DigitalMandiPage. rewrite E. cbn [mbind outcome_bind].
  destruct (useLocalStorage_effect_returns ls mandi_key ([] : list Listing))
    as (ls' & -> & _).
  eexists. split; reflexivity.
Qed.

End Mandi_facts.

Lemma add_then_remove_round_trip_witness :
  exists st1 entry st2,
    addItem (H := empty_array_JSON) sample_browser (setForm initial fresh_page)
      = Returned st1 /\
    list_items st1 = [entry] /\
    fields_of entry = initial /\
    l_id entry = genId sample_browser /\ l_ts entry = Date_now sample_browser /\
    remove (H := empty_array_JSON) (l_id entry) st1 = Returned st2 /\
    list_items st2 = [].
Proof.
  apply (add_then_remove_round_trip (H := empty_array_JSON)
           initial sample_browser fresh_page).
  - unfold required_fields_present. cbn. repeat split; discriminate.
  - reflexivity.
Defined.



Lemma addItem_stores_any_quantity_and_price_witness :
  (exists st' entry,
     addItem (H := empty_array_JSON) sample_browser
       (setForm {| crop := "Tomato"; qty := NaN; price := Fin (-5);
                   location := "Bhubaneswar"; contact := "9999999999" |} fresh_page)
       = Returned st' /\
     items st' = [entry] /\
     l_qty entry = NaN /\ l_price entry = Fin (-5)) /\
  addItem (H := empty_array_JSON) sample_browser
    (setForm {| crop := "Onion"; qty := Fin 0; price := NaN;
                location := "Cuttack"; contact := "" |} fresh_page)
    = Returned (setForm {| crop := "Onion"; qty := Fin 0; price := NaN;
                           location := "Cuttack"; contact := "" |} fresh_page).
Proof.
  split.
  - apply (proj1 (addItem_stores_any_quantity_and_price (H := empty_array_JSON)
                    sample_browser fresh_page NaN (Fin (-5)))).
    unfold required_fields_present. cbn. repeat split; discriminate.
  - apply (proj2 (addItem_stores_any_quantity_and_price (H := empty_array_JSON)
                    sample_browser (setForm blank_contact fresh_page) (Fin 0) NaN)).
    intros (_ & _ & Hcontact). apply Hcontact. reflexivity.
Defined.

Lemma listing_load_fails_open_witness :
  useLocalStorage_init (H := empty_array_JSON) empty_storage mandi_key
    ([] : list Listing) = Returned [] /\
  useLocalStorage_init (H := empty_array_JSON) corrupt_storage mandi_key
    ([] : list Listing) = Returned [].
Proof.
  split.
  - apply (proj2 (listing_load_fails_open (H := empty_array_JSON) empty_storage)).
    left. reflexivity.
  - apply (proj2 (listing_load_fails_open (H := empty_array_JSON) corrupt_storage)).
    right. exists "[{oops". split; [reflexivity|].
    exists SyntaxError. reflexivity.
Defined.

(** ** Disease detection *)

Section Detection_facts.

Lemma detectDisease_rejects (fetch : Fetch) (file : File) :
  (exists e, fetch crop_disease_url file = fetch_rejected e) \/
  (exists json, fetch crop_disease_url file = fetch_response false json) ->
  throws (detectDisease fetch file).
Proof.
  intros [[e He]|[json Hj]]; unfold detectDisease.
  - rewrite He. exists e. reflexivity.
  - rewrite Hj. eexists. reflexivity.
Qed.

Lemma detectDiseaseWithBackend_on_rejection (fetch : Fetch) (file : File) :
  throws (detectDisease fetch file) ->
  detectDiseaseWithBackend fetch file = Returned fallback.
Proof.
  intros [e He]. unfold detectDiseaseWithBackend. rewrite He. reflexivity.
Qed.

Lemma detectDiseaseWithBackend_returns (fetch : Fetch) (file : File) :
  returns (detectDiseaseWithBackend fetch file).
Proof. apply try_catch_returns. Qed.

Lemma detectDiseaseWithBackend_on_object (fetch : Fetch) (file : File)
    (members : list (string * value)) :
  fetch crop_disease_url file = fetch_response true (Returned (VObject members)) ->
  detectDiseaseWithBackend fetch file =
    Returned {| name := default VUndefined (member "disease" members);
                remedy := default VUndefined (member "remedy" members);
                confidence := default VUndefined (member "confidence" members) |}.
Proof.
  intros Hf. unfold detectDiseaseWithBackend, detectDisease.
  rewrite Hf. reflexivity.
Qed.

(** A 2xx reply whose body is not JSON, or is [null], also ends in the
    fallback. *)
Lemma detectDiseaseWithBackend_on_bad_body (fetch : Fetch) (file : File) :
  (exists e, fetch crop_disease_url file = fetch_response true (Thrown e)) \/
  fetch crop_disease_url file = fetch_response true (Returned VNull) ->
  detectDiseaseWithBackend fetch file = Returned fallback.
Proof.
  intros [[e Hf]|Hf]; unfold detectDiseaseWithBackend, detectDisease;
    rewrite Hf; reflexivity.
Qed.

(** C4. For every file the wrapper resolves and never rejects. When the
    underlying call rejects, through a network error or a response that is
    not 2xx, it resolves to the fixed fallback (name "Unavailable", remedy
    "Backend not reachable.", confidence 0). On a 2xx response carrying the
    object with members disease, remedy and confidence it resolves to that
    triple. *)
Theorem detectDiseaseWithBackend_contract (fetch : Fetch) (file : File) :
  returns (detectDiseaseWithBackend fetch file) /\
  ((exists e, fetch crop_disease_url file = fetch_rejected e) \/
   (exists json, fetch crop_disease_url file = fetch_response false json) ->
   throws (detectDisease fetch file) /\
   detectDiseaseWithBackend fetch file =
     Returned {| name := VString "Unavailable";
                 remedy := VString "Backend not reachable.";
                 confidence := VNumber (Fin 0) |}) /\
  (forall (members : list (string * value)) (disease remedy confidence : value),
     fetch crop_disease_url file = fetch_response true (Returned (VObject members)) ->
     member "disease" members = Some disease ->
     member "remedy" members = Some remedy ->
     member "confidence" members = Some confidence ->
     detectDiseaseWithBackend fetch file =
       Returned {| name := disease; remedy := remedy; confidence := confidence |}).
Proof.
  split; [apply detectDiseaseWithBackend_returns|]. split.
  - intros Hrej. pose proof (detectDisease_rejects fetch file Hrej) as Hthrows.
    split; [exact Hthrows|].
    apply detectDiseaseWithBackend_on_rejection, Hthrows.
  - intros members d r c Hf Hd Hr Hc.
    rewrite (detectDiseaseWithBackend_on_object fetch file members Hf), Hd, Hr, Hc.
    reflexivity.
Qed.

Lemma detectDiseaseWithBackend_contract_witness :
  detectDiseaseWithBackend offline "leaf.jpg" = Returned fallback /\
  detectDiseaseWithBackend server_error "leaf.jpg" = Returned fallback /\
  detectDiseaseWithBackend healthy_backend "leaf.jpg" =
    Returned {| name := VString "Late blight";
                remedy := VString "Remove infected leaves.";
                confidence := VNumber (Fin (87 # 100)) |}.
Proof.
  split; [|split].
  - apply (proj1 (proj2 (detectDiseaseWithBackend_contract offline "leaf.jpg"))).
    left. eexists. reflexivity.
  - apply (proj1 (proj2 (detectDiseaseWithBackend_contract server_error "leaf.jpg"))).
    right. eexists. reflexivity.
  - apply (proj2 (proj2 (detectDiseaseWithBackend_contract healthy_backend "leaf.jpg"))
             blight_reply); reflexivity.
Defined.

End Detection_facts.

(** * Further properties *)

(** ** EMI calculator, continued *)

Section EMI_more.
Local Open Scope float_scope.
Variable Math_pow : float -> float -> float.

(** A division by zero has no finite result. *)
Lemma div_zero_not_finite (x : float) :
  x / 0 = infinity \/ x / 0 = neg_infinity \/ x / 0 = nan.
Proof.
  rewrite <- (SF2Prim_Prim2SF (x / 0)), div_spec.
  change (Prim2SF 0) with (S754_zero false).
  destruct (Prim2SF x) as [[|]|[|]| |[|] m e]; vm_compute; auto.
Qed.




(** A rate so small that [1 + m] rounds to 1 while [m] is not zero makes
    the calculator divide by zero: as soon as the power of 1 is 1, the
    installment is [P m / 0], that is Infinity, -Infinity or NaN, never an
    amount of money. *)
Theorem EMI_tiny_rate_not_finite (P r n : float) :
  (r / 12 / 100 =? 0) = false ->
  1 + r / 12 / 100 = 1 ->
  Math_pow 1 n = 1 ->
  emi (EMICalc Math_pow P r n) = P * (r / 12 / 100) * 1 / 0 /\
  (emi (EMICalc Math_pow P r n) = infinity \/
   emi (EMICalc Math_pow P r n) = neg_infinity \/
   emi (EMICalc Math_pow P r n) = nan).
Proof.
  intros Hm Hone Hpow.
  assert (E : emi (EMICalc Math_pow P r n) = P * (r / 12 / 100) * 1 / 0).
  { unfold EMICalc. cbn [emi]. rewrite Hm, Hone, Hpow. reflexivity. }
  split; [exact E|]. rewrite E. apply div_zero_not_finite.
Qed.

End EMI_more.

#[local] Set Warnings "-inexact-float".


Lemma EMI_tiny_rate_not_finite_witness :
  (emi (EMICalc product_pow 100000 1e-14 24) = infinity)%float.
Proof.
  rewrite (proj1 (EMI_tiny_rate_not_finite product_pow 100000 1e-14 24
                    ltac:(reflexivity) ltac:(reflexivity) ltac:(reflexivity))).
  reflexivity.
Defined.

(** ** Rounding on rationals *)

Section Rounding_facts.
Local Open Scope Q_scope.

Lemma Math_round_bounds (x : Q) :
  inject_Z (Math_round x) <= x + (1 # 2) /\ x - (1 # 2) < inject_Z (Math_round x).
Proof.
  unfold Math_round. pose proof (Qfloor_le (x + (1 # 2))) as Hle.
  pose proof (Qlt_floor (x + (1 # 2))) as Hlt.
  rewrite inject_Z_plus in Hlt. change (inject_Z 1) with 1 in Hlt.
  split; [exact Hle | lra].
Qed.

Lemma Math_round_unique (x : Q) (z : Z) :
  inject_Z z <= x + (1 # 2) -> x - (1 # 2) < inject_Z z -> Math_round x = z.
Proof.
  intros Hle Hlt. destruct (Math_round_bounds x) as [Hle' Hlt'].
  assert (H1 : inject_Z z < inject_Z (Math_round x) + 1) by lra.
  assert (H2 : inject_Z (Math_round x) < inject_Z z + 1) by lra.
  change 1 with (inject_Z 1) in H1, H2. rewrite <- inject_Z_plus in H1, H2.
  rewrite <- Zlt_Qlt in H1, H2. lia.
Qed.

Lemma Math_round_shift (x : Q) (k : Z) :
  Math_round (x + inject_Z k) = (Math_round x + k)%Z.
Proof.
  destruct (Math_round_bounds x) as [Hle Hlt].
  apply Math_round_unique; rewrite inject_Z_plus; lra.
Qed.

End Rounding_facts.

(** ** Trend meter, continued *)

Section Trend_more.

Lemma trend_app (older recent : list number) :
  (4 <= List.length recent)%nat -> trend (older ++ recent) = trend recent.
Proof.
  intros Hlen. unfold trend. rewrite length_app.
  destruct (Nat.ltb_spec (List.length older + List.length recent) 4) as [Hlt|_]; [lia|].
  destruct (Nat.ltb_spec (List.length recent) 4) as [Hlt|_]; [lia|].
  cbv zeta. rewrite !slice_last_lookup, length_app.
  rewrite !lookup_app_r by lia.
  do 2 f_equal; f_equal; f_equal; lia.
Qed.

(** The verdict depends on the last four samples only: older history in
    front of them never changes it. *)
Theorem DecisionMeter_uses_last_four (older recent : list number) :
  (4 <= List.length recent)%nat ->
  DecisionMeter (older ++ recent) = DecisionMeter recent.
Proof. intros Hlen. unfold DecisionMeter. rewrite trend_app by exact Hlen. reflexivity. Qed.

Lemma DecisionMeter_uses_last_four_witness :
  DecisionMeter (Fin <$> [900; 3000; 10; 10; 10; 20]%Q) =
  DecisionMeter (Fin <$> [10; 10; 10; 20]%Q).
Proof.
  exact (DecisionMeter_uses_last_four (Fin <$> [900; 3000]%Q)
           (Fin <$> [10; 10; 10; 20]%Q) (le_n 4)).
Defined.

(** Within the last four samples only the first and the last count: the
    two in between can be anything, and when either end is not a number
    the verdict is "Neutral". *)
Theorem DecisionMeter_uses_window_ends (older : list number) (a x y b x' y' : number) :
  DecisionMeter (older ++ [a; x; y; b]) = DecisionMeter [a; x'; y'; b] /\
  (a = NaN \/ b = NaN -> DecisionMeter (older ++ [a; x; y; b]) = "Neutral").
Proof.
  assert (E : forall u v, DecisionMeter (older ++ [a; u; v; b]) = DecisionMeter [a; u; v; b]).
  { intros u v. unfold DecisionMeter. rewrite trend_app by (cbn; lia). reflexivity. }
  split; [rewrite E; reflexivity|].
  intros Hnan. rewrite E. destruct Hnan as [->| ->]; [destruct b|]; reflexivity.
Qed.

Lemma DecisionMeter_uses_window_ends_witness :
  DecisionMeter [Fin 7; NaN; Fin 12; Fin 5; Fin 9] = DecisionMeter [NaN; Fin 0; Fin 0; Fin 9] /\
  DecisionMeter [Fin 7; NaN; Fin 12; Fin 5; Fin 9] = "Neutral".
Proof.
  split.
  - exact (proj1 (DecisionMeter_uses_window_ends [Fin 7] NaN (Fin 12) (Fin 5) (Fin 9)
                    (Fin 0) (Fin 0))).
  - exact (proj2 (DecisionMeter_uses_window_ends [Fin 7] NaN (Fin 12) (Fin 5) (Fin 9)
                    (Fin 0) (Fin 0)) (or_introl eq_refl)).
Defined.

End Trend_more.

(** ** The storage hook, continued *)

Section Hook_more.
Context {A : Type} `{JSON A}.

Lemma setItem_fits (ls : LocalStorage) (key text : string) :
  ls_denied ls = false ->
  (N.of_nat (String.length text) <= ls_quota ls)%N ->
  setItem ls key text =
    Returned {| ls_denied := false; ls_quota := ls_quota ls;
                ls_records := <[key := text]> (ls_records ls) |}.
Proof.
  intros Hd Hq. unfold setItem. rewrite Hd.
  destruct (N.ltb_spec (ls_quota ls) (N.of_nat (String.length text))) as [Hlt|_]; [lia|].
  reflexivity.
Qed.

Lemma useLocalStorage_effect_saves (ls : LocalStorage) (key text : string) (state : A) :
  ls_denied ls = false ->
  JSON_stringify state = Returned text ->
  (N.of_nat (String.length text) <= ls_quota ls)%N ->
  useLocalStorage_effect ls key state =
    Returned {| ls_denied := false; ls_quota := ls_quota ls;
                ls_records := <[key := text]> (ls_records ls) |}.
Proof.
  intros Hd Hs Hq. unfold useLocalStorage_effect. rewrite Hs. cbn [mbind outcome_bind].
  rewrite (setItem_fits ls key text Hd Hq). reflexivity.
Qed.

Lemma useLocalStorage_effect_swallows (ls : LocalStorage) (key : string) (state : A) :
  write_fails ls state -> useLocalStorage_effect ls key state = Returned ls.
Proof.
  unfold useLocalStorage_effect, setItem.
  intros [Hd|[[e He]|(text & Hs & Hq)]].
  - rewrite Hd. destruct (JSON_stringify state); reflexivity.
  - rewrite He. reflexivity.
  - rewrite Hs. cbn [mbind outcome_bind].
    destruct (ls_denied ls); [reflexivity|].
    destruct (N.ltb_spec (ls_quota ls) (N.of_nat (String.length text))) as [_|Hge];
      [reflexivity | lia].
Qed.

Lemma useLocalStorage_init_loads (ls : LocalStorage) (key text : string)
    (initialValue state : A) :
  ls_denied ls = false ->
  ls_records ls !! key = Some text ->
  text <> "" ->
  JSON_parse text = Returned state ->
  useLocalStorage_init ls key initialValue = Returned state.
Proof.
  intros Hd Hr Ht Hp. unfold useLocalStorage_init, getItem. rewrite Hd.
  cbn [mbind outcome_bind]. rewrite Hr.
  apply truthy_nonempty in Ht. rewrite Ht, Hp. reflexivity.
Qed.

(** Save, then load. When the storage takes the write and [JSON.parse]
    reads back what [JSON.stringify] wrote, the state saved by the effect
    under a key is the state the initialiser returns for that key on the
    next load, whatever was stored before and whatever the default is. *)
Theorem useLocalStorage_saved_state_is_loaded (ls : LocalStorage) (key text : string)
    (state initialValue : A) :
  ls_denied ls = false ->
  JSON_stringify state = Returned text ->
  text <> "" ->
  (N.of_nat (String.length text) <= ls_quota ls)%N ->
  JSON_parse text = Returned state ->
  exists ls',
    useLocalStorage_effect ls key state = Returned ls' /\
    ls_records ls' !! key = Some text /\
    (forall other, other <> key -> ls_records ls' !! other = ls_records ls !! other) /\
    useLocalStorage_init ls' key initialValue = Returned state.
Proof.
  intros Hd Hs Ht Hq Hp.
  eexists. split; [apply (useLocalStorage_effect_saves ls key text state Hd Hs Hq)|].
  cbn [ls_records]. split; [apply lookup_insert_eq|]. split.
  - intros other Hne. apply lookup_insert_ne. congruence.
  - apply (useLocalStorage_init_loads _ key text initialValue state);
      [reflexivity | apply lookup_insert_eq | exact Ht | exact Hp].
Qed.

End Hook_more.

Lemma useLocalStorage_saved_state_is_loaded_witness :
  exists ls',
    useLocalStorage_effect (H := one_collection_JSON [tomato_listing] tomato_text)
      corrupt_storage mandi_key [tomato_listing] = Returned ls' /\
    ls_records ls' !! mandi_key = Some tomato_text /\
    (forall other, other <> mandi_key ->
       ls_records ls' !! other = ls_records corrupt_storage !! other) /\
    useLocalStorage_init (H := one_collection_JSON [tomato_listing] tomato_text)
      ls' mandi_key [] = Returned [tomato_listing].
Proof.
  apply (useLocalStorage_saved_state_is_loaded
           (H := one_collection_JSON [tomato_listing] tomato_text)
           corrupt_storage mandi_key tomato_text [tomato_listing] []);
    [reflexivity | reflexivity | discriminate | vm_compute; discriminate | reflexivity].
Defined.

(** ** The listing board, continued *)

Section Mandi_more.
Context `{JSON (list Listing)}.

(** [remove] deletes every entry that carries the id and nothing else:
    afterwards no entry has the id, the entries with another id are all
    still there, in their order, and the form is untouched. *)
Theorem remove_deletes_every_match (id : string) (st : MandiPage) :
  exists st', remove id st = Returned st' /\
    (id ∉ l_id <$> items st') /\
    (forall e, (e ∈ items st') <-> (e ∈ items st) /\ l_id e <> id) /\
    (items st' `sublist_of` items st) /\
    form st' = form st.
Proof.
  destruct (remove_returns id st) as (st' & E & Hi & Hf & _).
  exists st'. split; [exact E|]. rewrite Hi. split; [|split; [|split]].
  - rewrite list_elem_of_fmap. intros (e & Hid & Hin).
    apply list_elem_of_filter in Hin. destruct Hin as [Hne _]. congruence.
  - intros e. rewrite list_elem_of_filter. tauto.
  - apply sublist_filter.
  - exact Hf.
Qed.

(** [remove] of an id that no entry carries changes nothing in the
    collection, and removing the same id a second time changes nothing
    more. *)
Theorem remove_absent_and_repeated (id : string) (st : MandiPage) :
  (id ∉ l_id <$> items st ->
   exists st', remove id st = Returned st' /\ items st' = items st) /\
  (exists st1 st2,
     remove id st = Returned st1 /\ remove id st1 = Returned st2 /\
     items st2 = items st1).
Proof.
  split; [apply remove_absent|].
  destruct (remove_returns id st) as (st1 & E1 & Hi1 & _ & _).
  destruct (remove_returns id st1) as (st2 & E2 & Hi2 & _ & _).
  exists st1, st2. split; [exact E1|]. split; [exact E2|].
  rewrite Hi2. apply filter_other_ids.
  rewrite Hi1, list_elem_of_fmap. intros (e & Hid & Hin).
  apply list_elem_of_filter in Hin. destruct Hin as [Hne _]. congruence.
Qed.

Lemma setItems_saves (next : list Listing) (f : Form) (st : MandiPage) (text : string) :
  ls_denied (storage st) = false ->
  JSON_stringify next = Returned text ->
  (N.of_nat (String.length text) <= ls_quota (storage st))%N ->
  setItems next f st =
    Returned {| items := next; form := f;
                storage := {| ls_denied := false; ls_quota := ls_quota (storage st);
                              ls_records := <[mandi_key := text]>
                                              (ls_records (storage st)) |} |}.
Proof.
  intros Hd Hs Hq. unfold setItems.
  rewrite (useLocalStorage_effect_saves (storage st) mandi_key text next Hd Hs Hq).
  reflexivity.
Qed.

(** A posted listing survives a reload. When the storage takes the write
    and [JSON.parse] reads back what [JSON.stringify] wrote for the new
    collection, the page rendered anew from the storage left by [addItem]
    shows the same collection, and that render leaves the storage as it
    is. *)
Theorem posted_listing_survives_reload (b : Browser) (st : MandiPage) (text : string) :
  let next := items st ++ [make_listing (genId b) (Date_now b) (form st)] in
  required_fields_present (form st) ->
  ls_denied (storage st) = false ->
  JSON_stringify next = Returned text ->
  text <> "" ->
  (N.of_nat (String.length text) <= ls_quota (storage st))%N ->
  JSON_parse text = Returned next ->
  exists st' reloaded,
    addItem b st = Returned st' /\
    DigitalMandiPage (storage st') = Returned reloaded /\
    list_items reloaded = list_items st' /\
    list_items reloaded = next /\
    storage reloaded = storage st'.
Proof.
  intros next Hreq Hd Hs Ht Hq Hp.
  rewrite (addItem_accepts b st Hreq). fold next.
  rewrite (setItems_saves next initial st text Hd Hs Hq).
  eexists. eexists. split; [reflexivity|]. cbn [storage items list_items].
  unfold DigitalMandiPage.
  rewrite (useLocalStorage_init_loads _ mandi_key text [] next);
    [|reflexivity | apply lookup_insert_eq | exact Ht | exact Hp].
  cbn [mbind outcome_bind].
  rewrite (useLocalStorage_effect_saves _ mandi_key text next); [|reflexivity|exact Hs|exact Hq].
  cbn [mbind outcome_bind mret outcome_ret ls_quota ls_records].
  rewrite insert_insert_eq.
  split; [reflexivity|]. unfold list_items. cbn [items storage].
  repeat split; reflexivity.
Qed.

(** A failed write is silent and is not retried. When the storage is
    refused, the text is over the quota or [JSON.stringify] throws, an
    accepted [addItem] still shows the new listing but leaves the storage
    exactly as it was, so a reload shows the collection as it was stored
    before. *)
Theorem unsaved_listing_is_lost_on_reload (b : Browser) (st : MandiPage) :
  let next := items st ++ [make_listing (genId b) (Date_now b) (form st)] in
  required_fields_present (form st) ->
  write_fails (storage st) next ->
  exists st',
    addItem b st = Returned st' /\
    list_items st' = next /\
    storage st' = storage st /\
    DigitalMandiPage (storage st') = DigitalMandiPage (storage st).
Proof.
  intros next Hreq Hfail.
  rewrite (addItem_accepts b st Hreq). fold next. unfold setItems.
  rewrite (useLocalStorage_effect_swallows (storage st) mandi_key next Hfail).
  eexists. split; [reflexivity|]. repeat split; reflexivity.
Qed.

(** A record that cannot be read is written over. When the stored text
    fails to parse and the storage takes writes, the first render starts
    from the empty collection and replaces the stored text by the text of
    the empty collection: what was stored is gone. *)
Theorem unreadable_record_is_overwritten (ls : LocalStorage) (stored text : string) :
  ls_denied ls = false ->
  ls_records ls !! mandi_key = Some stored ->
  throws (JSON_parse stored) ->
  JSON_stringify ([] : list Listing) = Returned text ->
  (N.of_nat (String.length text) <= ls_quota ls)%N ->
  exists st,
    DigitalMandiPage ls = Returned st /\
    list_items st = [] /\
    ls_records (storage st) !! mandi_key = Some text.
Proof.
  intros Hd Hr Hc Hs Hq. unfold DigitalMandiPage.
  rewrite (useLocalStorage_init_corrupt ls mandi_key stored [] Hr Hc).
  cbn [mbind outcome_bind].
  rewrite (useLocalStorage_effect_saves ls mandi_key text [] Hd Hs Hq).
  eexists. split; [reflexivity|]. split; [reflexivity|].
  cbn [storage ls_records]. apply lookup_insert_eq.
Qed.

End Mandi_more.

Lemma remove_absent_and_repeated_witness :
  (exists st',
     remove (H := one_collection_JSON [tomato_listing] tomato_text)
       "no-such-id" tomato_page = Returned st' /\
     items st' = [tomato_listing]) /\
  (exists st1 st2,
     remove (H := one_collection_JSON [tomato_listing] tomato_text)
       "3b241101-e2bb-4255-8caf-4136c566a962" tomato_page = Returned st1 /\
     remove (H := one_collection_JSON [tomato_listing] tomato_text)
       "3b241101-e2bb-4255-8caf-4136c566a962" st1 = Returned st2 /\
     items st2 = items st1).
Proof.
  split.
  - apply (proj1 (remove_absent_and_repeated
                    (H := one_collection_JSON [tomato_listing] tomato_text)
                    "no-such-id" tomato_page)).
    cbn. intros Hin. apply list_elem_of_singleton in Hin. discriminate Hin.
  - apply (proj2 (remove_absent_and_repeated
                    (H := one_collection_JSON [tomato_listing] tomato_text)
                    "3b241101-e2bb-4255-8caf-4136c566a962" tomato_page)).
Defined.

Lemma posted_listing_survives_reload_witness :
  exists st' reloaded,
    addItem (H := one_collection_JSON [tomato_listing] tomato_text)
      sample_browser fresh_page = Returned st' /\
    DigitalMandiPage (H := one_collection_JSON [tomato_listing] tomato_text)
      (storage st') = Returned reloaded /\
    list_items reloaded = list_items st' /\
    list_items reloaded = [tomato_listing] /\
    storage reloaded = storage st'.
Proof.
  apply (posted_listing_survives_reload
           (H := one_collection_JSON [tomato_listing] tomato_text)
           sample_browser fresh_page tomato_text).
  - unfold required_fields_present. cbn. repeat split; discriminate.
  - reflexivity.
  - reflexivity.
  - discriminate.
  - vm_compute. discriminate.
  - reflexivity.
Defined.

Lemma unsaved_listing_is_lost_on_reload_witness :
  let page := {| items := []; form := initial; storage := tiny_storage |} in
  exists st',
    addItem (H := one_collection_JSON [tomato_listing] tomato_text)
      sample_browser page = Returned st' /\
    list_items st' = [tomato_listing] /\
    storage st' = tiny_storage /\
    DigitalMandiPage (H := one_collection_JSON [tomato_listing] tomato_text)
      (storage st') =
    DigitalMandiPage (H := one_collection_JSON [tomato_listing] tomato_text)
      tiny_storage.
Proof.
  apply (unsaved_listing_is_lost_on_reload
           (H := one_collection_JSON [tomato_listing] tomato_text)
           sample_browser {| items := []; form := initial; storage := tiny_storage |}).
  - unfold required_fields_present. cbn. repeat split; discriminate.
  - right. right. exists tomato_text. split; [reflexivity | vm_compute; reflexivity].
Defined.

Lemma unreadable_record_is_overwritten_witness :
  exists st,
    DigitalMandiPage (H := empty_array_JSON) corrupt_storage = Returned st /\
    list_items st = [] /\
    ls_records (storage st) !! mandi_key = Some "[]".
Proof.
  apply (unreadable_record_is_overwritten (H := empty_array_JSON)
           corrupt_storage "[{oops" "[]").
  - reflexivity.
  - reflexivity.
  - exists SyntaxError. reflexivity.
  - reflexivity.
  - vm_compute. discriminate.
Defined.

(** ** Mock mandi prices *)

Section Market_facts.

(** A crop name that is not a member inherited by every object. *)
Lemma object_get_ordinary {A} (table : gmap string A) (key : string) :
  key ∉ Object_prototype_keys ->
  object_get table key = match table !! key with Some a => Own a | None => Absent end.
Proof.
  intros Hk. unfold object_get. destruct (table !! key); [reflexivity|].
  rewrite bool_decide_eq_false_2 by exact Hk. reflexivity.
Qed.

Lemma mandi_base_supported (crop : string) :
  is_Some (mandi_base !! crop) <-> crop ∈ ["Wheat"; "Rice"; "Maize"; "Tomato"; "Onion"].
Proof.
  unfold mandi_base.
  rewrite !lookup_insert_is_Some', lookup_singleton_is_Some.
  rewrite !elem_of_cons, elem_of_nil. intuition congruence.
Qed.

(** The base price is a whole number between 1200 and 2400; it is 2000 for
    a crop that is not in the table. *)
Lemma base_price_ordinary (crop : string) :
  crop ∉ Object_prototype_keys ->
  exists b : Z, base_price crop = Fin (inject_Z b) /\ (1200 <= b <= 2400)%Z /\
    (mandi_base !! crop = None -> b = 2000%Z).
Proof.
  intros Hk. unfold base_price. rewrite (object_get_ordinary _ _ Hk).
  destruct (mandi_base !! crop) as [q|] eqn:Hq.
  - assert (Hs : is_Some (mandi_base !! crop)) by (rewrite Hq; eauto).
    apply mandi_base_supported in Hs. rewrite !elem_of_cons, elem_of_nil in Hs.
    destruct Hs as [->|[->|[->|[->|[->|[]]]]]];
      vm_compute in Hq; injection Hq as <-;
      [exists 2200%Z | exists 2400%Z | exists 1900%Z | exists 1200%Z | exists 1400%Z];
      (split; [reflexivity | split; [lia | discriminate]]).
  - exists 2000%Z. split; [reflexivity|]. split; [lia | reflexivity].
Qed.

Lemma point_price_whole (env : MandiEnv) (b : Z) (i : nat) :
  num_max (Fin 900) (num_round (num_add (Fin (inject_Z b)) (Fin (noise env i)))) =
  Fin (inject_Z (price_at env b i)).
Proof.
  unfold price_at. cbn [num_add num_round num_max].
  assert (E : Math_round (inject_Z b + noise env i) = (b + Math_round (noise env i))%Z).
  { unfold Math_round at 1.
    rewrite (Qfloor_comp _ (noise env i + (1 # 2) + inject_Z b)) by ring.
    fold (Math_round (noise env i + inject_Z b - inject_Z b)).
    pose proof (Math_round_shift (noise env i) b) as Hs. unfold Math_round in Hs |- *.
    rewrite (Qfloor_comp _ (noise env i + inject_Z b + (1 # 2))) by ring.
    rewrite Hs. lia. }
  rewrite E. set (R := (b + Math_round (noise env i))%Z).
  destruct (Qle_bool 900 (inject_Z R)) eqn:Hle.
  - apply Qle_bool_iff in Hle. change 900%Q with (inject_Z 900) in Hle.
    rewrite <- Zle_Qle in Hle. rewrite Z.max_r by exact Hle. reflexivity.
  - assert (Hlt : (R < 900)%Z).
    { destruct (Z.lt_ge_cases R 900) as [Hlt|Hge]; [exact Hlt|].
      assert (Hq : (900 <= inject_Z R)%Q)
        by (change 900%Q with (inject_Z 900); rewrite <- Zle_Qle; exact Hge).
      apply Qle_bool_iff in Hq. congruence. }
    rewrite Z.max_l by lia. reflexivity.
Qed.

Lemma generateMockMandiData_whole (env : MandiEnv) (crop : string) (b : Z) :
  base_price crop = Fin (inject_Z b) ->
  generateMockMandiData env crop =
    (fun i => {| point_date := date_label env (13 - i);
                 point_price := Fin (inject_Z (price_at env b i)) |}) <$> seq 0 14.
Proof.
  intros Hb. unfold generateMockMandiData. rewrite Hb. cbv zeta.
  apply list_fmap_ext. intros i x _. rewrite point_price_whole. reflexivity.
Qed.

(** For every crop name that is not an inherited member, listed or not,
    the series has exactly 14 points, in the order of the calendar and
    ending today, and every price is a whole number not below 900. *)
Theorem generateMockMandiData_shape (env : MandiEnv) (crop : string) :
  crop ∉ Object_prototype_keys ->
  let data := generateMockMandiData env crop in
  List.length data = 14%nat /\
  (forall i point, data !! i = Some point ->
     point_date point = date_label env (13 - i) /\
     exists z : Z, point_price point = Fin (inject_Z z) /\ (900 <= z)%Z).
Proof.
  intros Hk data. destruct (base_price_ordinary crop Hk) as (b & Hb & _ & _).
  unfold data. rewrite (generateMockMandiData_whole env crop b Hb).
  split; [rewrite length_fmap, length_seq; reflexivity|].
  intros i point Hlook. rewrite list_lookup_fmap in Hlook.
  destruct (seq 0 14 !! i) as [j|] eqn:Hj; [|discriminate].
  apply lookup_seq in Hj. destruct Hj as [-> _]. cbn in Hlook. injection Hlook as <-.
  split; [reflexivity|]. eexists. split; [reflexivity|]. unfold price_at. lia.
Qed.

Lemma generateMockMandiData_shape_witness :
  let data := generateMockMandiData sample_mandi_env "Barley" in
  List.length data = 14%nat /\
  (forall i point, data !! i = Some point ->
     point_date point = date_label sample_mandi_env (13 - i) /\
     exists z : Z, point_price point = Fin (inject_Z z) /\ (900 <= z)%Z).
Proof.
  apply (generateMockMandiData_shape sample_mandi_env "Barley").
  unfold Object_prototype_keys. rewrite !not_elem_of_cons. repeat split; try discriminate.
  apply not_elem_of_nil.
Defined.

Lemma noise_bounded (env : MandiEnv) (i : nat) :
  (forall x, -1 <= Math_sin env x /\ Math_sin env x <= 1)%Q ->
  (forall k, 0 <= Math_random env k /\ Math_random env k < 1)%Q ->
  (-100 <= noise env i /\ noise env i < 100)%Q.
Proof.
  intros Hsin Hrnd. unfold noise.
  destruct (Hsin (inject_Z (Z.of_nat i) / 2)%Q) as [Hs1 Hs2].
  destruct (Hrnd i) as [Hr1 Hr2]. split; lra.
Qed.

(** With a sine between -1 and 1 and draws in [0, 1), every price stays
    within 100 of the base price of the crop (2000 for an unlisted crop),
    so the floor of 900 never applies. *)
Theorem generateMockMandiData_band (env : MandiEnv) (crop : string) :
  crop ∉ Object_prototype_keys ->
  (forall x, -1 <= Math_sin env x /\ Math_sin env x <= 1)%Q ->
  (forall k, 0 <= Math_random env k /\ Math_random env k < 1)%Q ->
  exists b : Z,
    base_price crop = Fin (inject_Z b) /\
    (mandi_base !! crop = None -> b = 2000%Z) /\
    forall point, point ∈ generateMockMandiData env crop ->
      exists z : Z, point_price point = Fin (inject_Z z) /\ (b - 100 <= z <= b + 100)%Z.
Proof.
  intros Hk Hsin Hrnd. destruct (base_price_ordinary crop Hk) as (b & Hb & Hrange & Hdef).
  exists b. split; [exact Hb|]. split; [exact Hdef|].
  intros point Hin. rewrite (generateMockMandiData_whole env crop b Hb) in Hin.
  apply list_elem_of_fmap in Hin. destruct Hin as (i & -> & _).
  eexists. split; [reflexivity|]. unfold price_at.
  destruct (noise_bounded env i Hsin Hrnd) as [Hlo Hhi].
  destruct (Math_round_bounds (noise env i)) as [Hr1 Hr2].
  assert (H1 : (inject_Z (Math_round (noise env i)) < inject_Z 101)%Q)
    by (change (inject_Z 101) with 101%Q; lra).
  assert (H2 : (inject_Z (-101) < inject_Z (Math_round (noise env i)))%Q)
    by (change (inject_Z (-101)) with (-101)%Q; lra).
  rewrite <- Zlt_Qlt in H1, H2. lia.
Qed.

Lemma generateMockMandiData_band_witness :
  exists b : Z,
    base_price "Onion" = Fin (inject_Z b) /\
    (mandi_base !! "Onion" = None -> b = 2000%Z) /\
    forall point, point ∈ generateMockMandiData sample_mandi_env "Onion" ->
      exists z : Z, point_price point = Fin (inject_Z z) /\ (b - 100 <= z <= b + 100)%Z.
Proof.
  apply (generateMockMandiData_band sample_mandi_env "Onion").
  - unfold Object_prototype_keys. rewrite !not_elem_of_cons.
    repeat split; try discriminate. apply not_elem_of_nil.
  - intros x. cbn [Math_sin sample_mandi_env].
    destruct (sine_table !! Z.to_nat (Qfloor (x * 2))) as [s|] eqn:Hs;
      [|split; discriminate].
    apply list_elem_of_lookup_2 in Hs. unfold sine_table in Hs.
    rewrite !elem_of_cons, elem_of_nil in Hs.
    repeat (destruct Hs as [->|Hs]; [split; discriminate|]). destruct Hs.
  - intros k. cbn [Math_random sample_mandi_env].
    assert (Hm : (0 <= Z.of_nat (k * 5 mod 14) < 14)%Z).
    { pose proof (Nat.mod_upper_bound (k * 5) 14). lia. }
    set (z := Z.of_nat (k * 5 mod 14)) in *. split.
    + apply Qle_shift_div_l; [reflexivity|]. rewrite Qmult_0_l.
      change 0%Q with (inject_Z 0). rewrite <- Zle_Qle. lia.
    + apply Qlt_shift_div_r; [reflexivity|]. rewrite Qmult_1_l.
      change 14%Q with (inject_Z 14). rewrite <- Zlt_Qlt. lia.
Defined.

(** The verdict of the meter from the two ends of the window. *)
Lemma verdict_of_ends (qs : list Q) (first last : Q) :
  (4 <= List.length qs)%nat ->
  qs !! (List.length qs - 4)%nat = Some first ->
  qs !! (List.length qs - 1)%nat = Some last ->
  DecisionMeter (Fin <$> qs) =
    if Qle_bool last first
    then (if Qle_bool first last then "Neutral" else "Sell Soon (Downtrend)")
    else "Hold (Uptrend)".
Proof.
  intros Hlen Hfirst Hlast. unfold DecisionMeter.
  rewrite (trend_window qs first last Hlen Hfirst Hlast).
  cbn [num_gt0 num_lt0 inject_Z Qnum].
  pose proof (Qnum_minus_pos first last) as Hp.
  pose proof (Qnum_minus_neg first last) as Hn.
  destruct (Qle_bool last first) eqn:E1.
  - apply Qle_bool_iff in E1.
    destruct (Z.ltb_spec 0 (Z.sgn (Qnum (last - first)))) as [H0|H0].
    { assert (first < last)%Q by (apply Hp; lia). lra. }
    destruct (Qle_bool first last) eqn:E2.
    + apply Qle_bool_iff in E2.
      destruct (Z.ltb_spec (Z.sgn (Qnum (last - first))) 0) as [H1|H1]; [|reflexivity].
      assert (last < first)%Q by (apply Hn; lia). lra.
    + destruct (Z.ltb_spec (Z.sgn (Qnum (last - first))) 0) as [H1|H1]; [reflexivity|].
      assert (Hnn : ~ (last < first)%Q) by (intros Hlt; apply Hn in Hlt; lia).
      assert (Hle : (first <= last)%Q) by lra.
      apply Qle_bool_iff in Hle. congruence.
  - assert (Hlt : (first < last)%Q).
    { destruct (Qlt_le_dec first last) as [Hlt|Hle]; [exact Hlt|].
      apply Qle_bool_iff in Hle. congruence. }
    apply Hp in Hlt.
    destruct (Z.ltb_spec 0 (Z.sgn (Qnum (last - first)))); [reflexivity | lia].
Qed.

(** On the market page, for every crop name that is not an inherited
    member: "Current" is the price of the last day (never the fallback 0),
    and the "Sell Now / Hold?" card compares the price of the last day with
    the price three days before it. *)
Theorem market_page_reads_series (env : MandiEnv) (crop : string) :
  crop ∉ Object_prototype_keys ->
  let data := generateMockMandiData env crop in
  exists earlier today : Z,
    point_price <$> data !! 10%nat = Some (Fin (inject_Z earlier)) /\
    point_price <$> data !! 13%nat = Some (Fin (inject_Z today)) /\
    latest data = Fin (inject_Z today) /\ (900 <= today)%Z /\
    ((earlier < today)%Z -> market_verdict data = "Hold (Uptrend)") /\
    ((earlier = today)%Z -> market_verdict data = "Neutral") /\
    ((today < earlier)%Z -> market_verdict data = "Sell Soon (Downtrend)").
Proof.
  intros Hk data. destruct (base_price_ordinary crop Hk) as (b & Hb & _ & _).
  exists (price_at env b 10), (price_at env b 13).
  unfold data. rewrite (generateMockMandiData_whole env crop b Hb).
  split; [reflexivity|]. split; [reflexivity|].
  assert (H900 : (900 <= price_at env b 13)%Z) by (unfold price_at; lia).
  split.
  { unfold latest. cbn [List.length fmap list_fmap seq lookup list_lookup Nat.sub].
    cbn [point_price num_truthy].
    destruct (Qeq_bool (inject_Z (price_at env b 13)) 0) eqn:E; [|reflexivity].
    apply Qeq_bool_iff in E. unfold Qeq in E. cbn in E. lia. }
  split; [exact H900|].
  unfold market_verdict. rewrite <- list_fmap_compose.
  set (qs := (fun i => inject_Z (price_at env b i)) <$> seq 0 14).
  assert (Eq : (point_price ∘ (fun i => {| point_date := date_label env (13 - i);
                 point_price := Fin (inject_Z (price_at env b i)) |})) <$> seq 0 14
               = Fin <$> qs).
  { unfold qs. rewrite <- list_fmap_compose. reflexivity. }
  rewrite Eq.
  rewrite (verdict_of_ends qs (inject_Z (price_at env b 10)) (inject_Z (price_at env b 13)));
    [|cbn; lia | reflexivity | reflexivity].
  set (e := price_at env b 10). set (t := price_at env b 13).
  repeat split; intros Hcmp.
  - destruct (Qle_bool (inject_Z t) (inject_Z e)) eqn:E1; [|reflexivity].
    apply Qle_bool_iff in E1. rewrite <- Zle_Qle in E1. lia.
  - subst e. rewrite Hcmp.
    assert (E1 : Qle_bool (inject_Z t) (inject_Z t) = true)
      by (apply Qle_bool_iff, Qle_refl).
    rewrite E1. reflexivity.
  - assert (E1 : Qle_bool (inject_Z t) (inject_Z e) = true)
      by (apply Qle_bool_iff; rewrite <- Zle_Qle; lia).
    rewrite E1.
    destruct (Qle_bool (inject_Z e) (inject_Z t)) eqn:E2; [|reflexivity].
    apply Qle_bool_iff in E2. rewrite <- Zle_Qle in E2. lia.
Qed.

Lemma market_page_reads_series_witness :
  let data := generateMockMandiData sample_mandi_env "Wheat" in
  exists earlier today : Z,
    point_price <$> data !! 10%nat = Some (Fin (inject_Z earlier)) /\
    point_price <$> data !! 13%nat = Some (Fin (inject_Z today)) /\
    latest data = Fin (inject_Z today) /\ (900 <= today)%Z /\
    ((earlier < today)%Z -> market_verdict data = "Hold (Uptrend)") /\
    ((earlier = today)%Z -> market_verdict data = "Neutral") /\
    ((today < earlier)%Z -> market_verdict data = "Sell Soon (Downtrend)").
Proof.
  apply (market_page_reads_series sample_mandi_env "Wheat").
  unfold Object_prototype_keys. rewrite !not_elem_of_cons. repeat split; try discriminate.
  apply not_elem_of_nil.
Defined.

(** A crop name that is a member inherited by every object, such as
    "constructor", is not treated as unlisted: every price of its series is
    [NaN], "Current" falls back to 0 and the verdict is "Neutral". *)
Theorem generateMockMandiData_inherited_name (env : MandiEnv) (crop : string) :
  crop ∈ Object_prototype_keys ->
  let data := generateMockMandiData env crop in
  List.length data = 14%nat /\
  (forall point, point ∈ data -> point_price point = NaN) /\
  latest data = Fin 0 /\
  market_verdict data = "Neutral".
Proof.
  intros Hk data.
  assert (Hb : base_price crop = NaN).
  { unfold base_price, object_get.
    assert (Hnone : mandi_base !! crop = None).
    { destruct (mandi_base !! crop) eqn:Hq; [|reflexivity].
      assert (Hs : is_Some (mandi_base !! crop)) by (rewrite Hq; eauto).
      apply mandi_base_supported in Hs. unfold Object_prototype_keys in Hk.
      rewrite !elem_of_cons, elem_of_nil in Hs.
      rewrite !elem_of_cons in Hk. rewrite elem_of_nil in Hk.
      destruct Hs as [->|[->|[->|[->|[->|[]]]]]];
        repeat (destruct Hk as [Hk|Hk]; [discriminate Hk|]); destruct Hk. }
    rewrite Hnone, bool_decide_eq_true_2 by exact Hk. reflexivity. }
  unfold data, generateMockMandiData. rewrite Hb. cbv zeta.
  cbn [num_add num_round num_max].
  split; [reflexivity|]. split; [|split; reflexivity].
  intros point Hin. apply list_elem_of_fmap in Hin. destruct Hin as (i & -> & _).
  reflexivity.
Qed.

Lemma generateMockMandiData_inherited_name_witness :
  let data := generateMockMandiData sample_mandi_env "constructor" in
  List.length data = 14%nat /\
  (forall point, point ∈ data -> point_price point = NaN) /\
  latest data = Fin 0 /\
  market_verdict data = "Neutral".
Proof.
  apply (generateMockMandiData_inherited_name sample_mandi_env "constructor").
  unfold Object_prototype_keys. apply list_elem_of_here.
Defined.

End Market_facts.

(** ** Weather advisory *)

Section Weather_facts.

Lemma num_gt_spec (a : number) (c : Q) :
  num_gt a (Fin c) = true <-> exists q, a = Fin q /\ (c < q)%Q.
Proof.
  destruct a as [q|]; cbn.
  - rewrite negb_true_iff. split.
    + intros Hle. exists q. split; [reflexivity|].
      destruct (Qlt_le_dec c q) as [Hlt|Hge]; [exact Hlt|].
      apply Qle_bool_iff in Hge. congruence.
    + intros (q' & [= <-] & Hlt). destruct (Qle_bool q c) eqn:E; [|reflexivity].
      apply Qle_bool_iff in E. lra.
  - split; [discriminate|]. intros (q & Hq & _). discriminate Hq.
Qed.

(** The advisory reads the data the way the rules are written. Each of the
    three warnings is listed exactly when its condition holds, in the order
    rain, humidity, wind; the "Conditions stable" line is listed exactly
    when none holds, and then it is the only line. So loaded data always
    give between one and three lines, and no data give none. *)
Theorem advice_rules (data : Weather) :
  let lines := advice (Some data) in
  (rain_advice ∈ lines <-> rainNext48h data = Some true) /\
  (humidity_advice ∈ lines <->
     exists h, humidity data = Some (Fin h) /\ (70 < h)%Q) /\
  (wind_advice ∈ lines <-> exists w, wind data = Some (Fin w) /\ (12 < w)%Q) /\
  (stable_advice ∈ lines <-> lines = [stable_advice]) /\
  (lines = [stable_advice] <->
     (rain_advice ∉ lines) /\ (humidity_advice ∉ lines) /\ (wind_advice ∉ lines)) /\
  ((lines `sublist_of` [rain_advice; humidity_advice; wind_advice]) \/
   lines = [stable_advice]) /\
  (1 <= List.length lines <= 3)%nat /\
  advice None = [].
Proof.
  intros lines.
  assert (Hrain : default false (rainNext48h data) = true <-> rainNext48h data = Some true).
  { destruct (rainNext48h data) as [[|]|]; cbn; split; congruence. }
  assert (Hhum : num_gt (to_number (humidity data)) (Fin 70) = true <->
                 exists h, humidity data = Some (Fin h) /\ (70 < h)%Q).
  { rewrite num_gt_spec. destruct (humidity data) as [a|]; cbn.
    - split; intros (q & Hq & Hlt); exists q; split; congruence.
    - split; intros (q & Hq & _); discriminate Hq. }
  assert (Hwind : num_gt (to_number (wind data)) (Fin 12) = true <->
                  exists w, wind data = Some (Fin w) /\ (12 < w)%Q).
  { rewrite num_gt_spec. destruct (wind data) as [a|]; cbn.
    - split; intros (q & Hq & Hlt); exists q; split; congruence.
    - split; intros (q & Hq & _); discriminate Hq. }
  rewrite <- Hrain, <- Hhum, <- Hwind. clear Hrain Hhum Hwind.
  unfold lines, advice.
  destruct (default false (rainNext48h data)),
           (num_gt (to_number (humidity data)) (Fin 70)),
           (num_gt (to_number (wind data)) (Fin 12));
    cbn [List.length app Nat.eqb];
    (split; [|split; [|split; [|split; [|split; [|split; [|split]]]]]]);
    first [ compute_done
          | right; reflexivity
          | left; repeat first [apply sublist_nil | apply sublist_skip | apply sublist_cons] ].
Qed.

(** For a city that is not one of the four presets the advisory is a
    single line. For an ordinary name the only warning that can appear is
    the rain warning, shown when the random draw is above one half (the
    fixed humidity 55 and wind 11 never trigger); for a name inherited by
    every object, such as "constructor", it is the "Conditions stable"
    line. *)
Theorem advice_for_unlisted_city (random : Q) (city : string) :
  presets !! city = None ->
  (city ∉ Object_prototype_keys ->
   ((1 # 2 < random)%Q -> advice (Some (mockWeather random city)) = [rain_advice]) /\
   ((random <= 1 # 2)%Q -> advice (Some (mockWeather random city)) = [stable_advice])) /\
  (city ∈ Object_prototype_keys ->
   advice (Some (mockWeather random city)) = [stable_advice]).
Proof.
  intros Hnone. unfold mockWeather, object_get. rewrite Hnone. split.
  - intros Hk. rewrite bool_decide_eq_false_2 by exact Hk.
    unfold advice. cbn [rainNext48h humidity wind default to_number num_gt].
    split; intros Hr.
    + assert (E : Qle_bool random (1 # 2) = false).
      { destruct (Qle_bool random (1 # 2)) eqn:E; [|reflexivity].
        apply Qle_bool_iff in E. lra. }
      rewrite E. reflexivity.
    + apply Qle_bool_iff in Hr. rewrite Hr. reflexivity.
  - intros Hk. rewrite bool_decide_eq_true_2 by exact Hk. reflexivity.
Qed.

Lemma advice_for_unlisted_city_witness :
  advice (Some (mockWeather (3 # 4) "Pune")) = [rain_advice] /\
  advice (Some (mockWeather (1 # 4) "Pune")) = [stable_advice] /\
  advice (Some (mockWeather (3 # 4) "toString")) = [stable_advice].
Proof.
  assert (Hpune : "Pune" ∉ Object_prototype_keys).
  { unfold Object_prototype_keys. rewrite !not_elem_of_cons.
    repeat split; try discriminate. apply not_elem_of_nil. }
  split; [|split].
  - apply (proj1 (proj1 (advice_for_unlisted_city (3 # 4) "Pune" eq_refl) Hpune)).
    reflexivity.
  - apply (proj2 (proj1 (advice_for_unlisted_city (1 # 4) "Pune" eq_refl) Hpune)).
    discriminate.
  - apply (proj2 (advice_for_unlisted_city (3 # 4) "toString" eq_refl)).
    unfold Object_prototype_keys. rewrite !elem_of_cons. tauto.
Defined.

End Weather_facts.

(** ** Knowledge hub *)

Section Chat_facts.
Context `{StringOps}.

Lemma prefix_occurs (sub s : string) :
  String.prefix sub s = true <-> exists after, s = sub +:+ after.
Proof.
  revert s. induction sub as [|a sub IH]; intros s.
  - split; [intros _; exists s; reflexivity | intros _; destruct s; reflexivity].
  - destruct s as [|b s]; cbn;
      [split; [discriminate | intros [after E]; discriminate E]|].
    destruct (ascii_dec a b) as [->|Hne].
    + rewrite IH. split; intros [after E]; exists after.
      * rewrite E. reflexivity.
      * cbn in E. injection E as E. exact E.
    + split; [discriminate|]. intros [after E]. cbn in E. injection E as E1 E2.
      congruence.
Qed.

Lemma includes_occurs (s sub : string) : includes s sub = true <-> occurs sub s.
Proof.
  unfold occurs. induction s as [|c s IH].
  - cbn [includes]. rewrite orb_false_r, prefix_occurs. split.
    + intros [after E]. exists "", after. exact E.
    + intros (before & after & E). destruct before as [|b before]; [|discriminate E].
      exists after. exact E.
  - cbn [includes]. rewrite orb_true_iff, prefix_occurs, IH. split.
    + intros [[after E]|(before & after & E)].
      * exists "", after. exact E.
      * exists (String c before), after. cbn. rewrite E. reflexivity.
    + intros (before & after & E). destruct before as [|b before].
      * left. exists after. exact E.
      * right. cbn in E. injection E as E1 E2. exists before, after. exact E2.
Qed.

(** The rules of the helper, in the order they are tried, on the lower-case
    text: wheat with fertilizer first, then a scheme, then pesticide with
    spray, then onion with storage; the empty text, which makes the caller
    fall back to the generic answer, exactly when no rule matches. *)
Theorem smallExpert_rules (text : string) :
  let t := toLowerCase text in
  let wheat := occurs "wheat" t /\ occurs "fertilizer" t in
  let scheme := occurs "pm kisan" t \/ occurs "scheme" t in
  let spray := occurs "pesticide" t /\ occurs "spray" t in
  let onion := occurs "onion" t /\ occurs "storage" t in
  (smallExpert text = wheat_answer <-> wheat) /\
  (smallExpert text = scheme_answer <-> ~ wheat /\ scheme) /\
  (smallExpert text = spray_answer <-> ~ wheat /\ ~ scheme /\ spray) /\
  (smallExpert text = onion_answer <-> ~ wheat /\ ~ scheme /\ ~ spray /\ onion) /\
  (smallExpert text = "" <-> ~ wheat /\ ~ scheme /\ ~ spray /\ ~ onion).
Proof.
  intros t wheat scheme spray onion. unfold smallExpert. fold t.
  assert (Hw : includes t "wheat" && includes t "fertilizer" = true <-> wheat)
    by (rewrite andb_true_iff, !includes_occurs; reflexivity).
  assert (Hs : includes t "pm kisan" || includes t "scheme" = true <-> scheme)
    by (rewrite orb_true_iff, !includes_occurs; reflexivity).
  assert (Hp : includes t "pesticide" && includes t "spray" = true <-> spray)
    by (rewrite andb_true_iff, !includes_occurs; reflexivity).
  assert (Ho : includes t "onion" && includes t "storage" = true <-> onion)
    by (rewrite andb_true_iff, !includes_occurs; reflexivity).
  clearbody wheat scheme spray onion.
  destruct (includes t "wheat" && includes t "fertilizer"),
           (includes t "pm kisan" || includes t "scheme"),
           (includes t "pesticide" && includes t "spray"),
           (includes t "onion" && includes t "storage");
    repeat split; try discriminate; intuition (try discriminate; auto).
Qed.

Lemma answer_nonempty (question : string) : answer question <> "".
Proof.
  unfold answer. cbv zeta. destruct (truthy (smallExpert question)) eqn:E.
  - apply truthy_nonempty, E.
  - discriminate.
Qed.

Lemma chat_run_snoc (events : list chat_event) (e : chat_event) :
  chat_run (events ++ [e]) = chat_step (chat_run events) e.
Proof. unfold chat_run. rewrite foldl_app. reflexivity. Qed.

Lemma texts_of_snoc (role : string) (msgs : list Msg) (m : Msg) :
  texts_of role (msgs ++ [m]) =
  texts_of role msgs ++ (if decide (msg_role m = role) then [msg_text m] else []).
Proof.
  unfold texts_of. rewrite filter_app, fmap_app, filter_cons, filter_nil.
  destruct (decide (msg_role m = role)); reflexivity.
Qed.

(** Whatever the user types and sends and whenever the timers expire, no
    message is lost and the answers come in the order of the questions:
    the assistant's texts so far, followed by the answers still pending,
    are the greeting followed by the answers to the user's texts. Once
    nothing is pending there is one more assistant message than user
    messages. *)
Theorem chat_answers_follow_questions (events : list chat_event) :
  let st := chat_run events in
  texts_of "assistant" (chat_msgs st) ++ (answer <$> chat_waiting st) =
    greeting :: (answer <$> texts_of "user" (chat_msgs st)) /\
  (chat_waiting st = [] ->
   List.length (texts_of "assistant" (chat_msgs st)) =
     S (List.length (texts_of "user" (chat_msgs st)))).
Proof.
  cbv zeta.
  assert (Inv : texts_of "assistant" (chat_msgs (chat_run events)) ++
                (answer <$> chat_waiting (chat_run events)) =
                greeting :: (answer <$> texts_of "user" (chat_msgs (chat_run events)))).
  { induction events as [|e events IH] using rev_ind; [reflexivity|].
    rewrite chat_run_snoc. set (st := chat_run events) in *.
    destruct e as [text| |]; cbn [chat_step].
    - exact IH.
    - unfold reply_send. destruct (negb (truthy (trim (chat_q st)))); [exact IH|].
      cbn [chat_msgs chat_waiting]. rewrite !texts_of_snoc. cbn [msg_role msg_text].
      rewrite decide_False by discriminate. rewrite decide_True by reflexivity.
      rewrite app_nil_r, !fmap_app, app_assoc, IH. reflexivity.
    - unfold reply_resume. destruct (chat_waiting st) as [|question rest] eqn:Hw;
        [rewrite Hw; exact IH|].
      cbn [chat_msgs chat_waiting]. rewrite !texts_of_snoc. cbn [msg_role msg_text].
      rewrite decide_True by reflexivity. rewrite decide_False by discriminate.
      rewrite app_nil_r, <- app_assoc. exact IH. }
  split; [exact Inv|].
  intros Hnone. rewrite Hnone, app_nil_r in Inv. rewrite Inv. cbn.
  rewrite length_fmap. reflexivity.
Qed.

(** No blank line ever enters the transcript: a text that is empty after
    trimming is not sent, and every answer of the assistant is a text that
    is not empty. *)
Theorem chat_has_no_blank_message (events : list chat_event) (m : Msg) :
  m ∈ chat_msgs (chat_run events) ->
  (msg_role m = "user" /\ trim (msg_text m) <> "") \/
  (msg_role m = "assistant" /\ msg_text m <> "").
Proof.
  revert m. induction events as [|e events IH] using rev_ind; intros m Hin.
  - cbn in Hin. apply list_elem_of_singleton in Hin. subst m. right.
    split; [reflexivity | discriminate].
  - rewrite chat_run_snoc in Hin. set (st := chat_run events) in *.
    destruct e as [text| |]; cbn [chat_step] in Hin.
    + apply IH, Hin.
    + unfold reply_send in Hin.
      destruct (truthy (trim (chat_q st))) eqn:Ht; cbn [negb] in Hin; [|apply IH, Hin].
      cbn [chat_msgs] in Hin. apply elem_of_app in Hin. destruct Hin as [Hin|Hin].
      * apply IH, Hin.
      * apply list_elem_of_singleton in Hin. subst m. left.
        split; [reflexivity | apply truthy_nonempty, Ht].
    + unfold reply_resume in Hin.
      destruct (chat_waiting st) as [|question rest]; [apply IH, Hin|].
      cbn [chat_msgs] in Hin. apply elem_of_app in Hin. destruct Hin as [Hin|Hin].
      * apply IH, Hin.
      * apply list_elem_of_singleton in Hin. subst m. right.
        split; [reflexivity | apply answer_nonempty].
Qed.

End Chat_facts.

Lemma chat_has_no_blank_message_witness :
  let events := [Typed "Onion STORAGE tips"; Sent; Typed "   "; Sent; TimerExpired] in
  let m := {| msg_role := "assistant"; msg_text := onion_answer |} in
  (msg_role m = "user" /\ trim (StringOps := ascii_StringOps) (msg_text m) <> "") \/
  (msg_role m = "assistant" /\ msg_text m <> "").
Proof.
  apply (chat_has_no_blank_message (H := ascii_StringOps)
           [Typed "Onion STORAGE tips"; Sent; Typed "   "; Sent; TimerExpired]
           {| msg_role := "assistant"; msg_text := onion_answer |}).
  vm_compute. apply list_elem_of_further, list_elem_of_further, list_elem_of_here.
Defined.

Lemma chat_answers_follow_questions_witness :
  let st := chat_run (H := ascii_StringOps)
              [Typed "PM Kisan?"; Sent; Typed "wheat FERTILIZER dose"; Sent;
               TimerExpired; TimerExpired] in
  List.length (texts_of "assistant" (chat_msgs st)) =
    S (List.length (texts_of "user" (chat_msgs st))).
Proof.
  apply (proj2 (chat_answers_follow_questions (H := ascii_StringOps)
                  [Typed "PM Kisan?"; Sent; Typed "wheat FERTILIZER dose"; Sent;
                   TimerExpired; TimerExpired])).
  reflexivity.
Defined.

(** ** Crop doctor *)

Section Doctor_facts.



(** Clearing the preview does not cancel the analysis: when the button is
    pressed while the call is awaited, the result still arrives and is
    shown with no file and no preview. *)
Theorem clear_does_not_cancel (createObjectURL : File -> string) (fetch : Fetch)
    (f : File) (st : DoctorPage) :
  exists st' r,
    onFile_end fetch f (clear_preview (onFile_begin createObjectURL (Some f) st))
      = Returned st' /\
    file st' = None /\ preview st' = "" /\ loading st' = false /\
    result st' = Some r /\ detectDiseaseWithBackend fetch f = Returned r.
Proof.
  destruct (detectDiseaseWithBackend_returns fetch f) as [r Hr].
  unfold onFile_end. rewrite Hr. cbn [mbind outcome_bind].
  eexists. exists r. split; [reflexivity|]. cbn. repeat split.
Qed.

End Doctor_facts.

(** ** Health check *)

Section Health_facts.

(** [health] does not look at the status of the response: it resolves to
    the parsed body for every response whose body parses, also for one that
    is not 2xx, and rejects exactly when the request fails or the body does
    not parse. *)
Theorem health_ignores_status (fetch : FetchGet) :
  (forall ok body,
     fetch (API_BASE_URL +:+ "/health") = fetch_response ok (Returned body) ->
     health fetch = Returned body) /\
  (throws (health fetch) <->
     (exists e, fetch (API_BASE_URL +:+ "/health") = fetch_rejected e) \/
     (exists ok e, fetch (API_BASE_URL +:+ "/health") = fetch_response ok (Thrown e))).
Proof.
  unfold health. split.
  - intros ok body Hf. rewrite Hf. reflexivity.
  - destruct (fetch (API_BASE_URL +:+ "/health")) as [e|ok [body|e]]; split.
    + intros _. left. exists e. reflexivity.
    + intros _. exists e. reflexivity.
    + intros [e He]. discriminate He.
    + intros [[e He]|(ok' & e & He)]; discriminate He.
    + intros _. right. exists ok, e. reflexivity.
    + intros _. exists e. reflexivity.
Qed.

Lemma health_ignores_status_witness :
  health unhealthy_server = Returned (VObject [("status", VString "starting")]).
Proof.
  apply (proj1 (health_ignores_status unhealthy_server) false). reflexivity.
Defined.

End Health_facts.

(** ** Navigation and the stored tab *)

Section App_facts.

Lemma App_main_cases (tab : string) :
  (tab = "home" /\ App_main tab = [page_home]) \/
  (tab = "crop-doctor" /\ App_main tab = [page_crop_doctor]) \/
  (tab = "market" /\ App_main tab = [page_market]) \/
  (tab = "mandi" /\ App_main tab = [page_mandi]) \/
  (tab = "weather" /\ App_main tab = [page_weather]) \/
  (tab = "chat" /\ App_main tab = [page_chat]) \/
  (tab = "finance" /\ App_main tab = [page_finance]) \/
  ((tab ∉ TopNav_items.*1) /\ App_main tab = []).
Proof.
  unfold App_main.
  destruct (String.eqb_spec tab "home") as [->|H1]; [left; split; reflexivity|].
  destruct (String.eqb_spec tab "crop-doctor") as [->|H2];
    [right; left; split; reflexivity|].
  destruct (String.eqb_spec tab "market") as [->|H3];
    [do 2 right; left; split; reflexivity|].
  destruct (String.eqb_spec tab "mandi") as [->|H4];
    [do 3 right; left; split; reflexivity|].
  destruct (String.eqb_spec tab "weather") as [->|H5];
    [do 4 right; left; split; reflexivity|].
  destruct (String.eqb_spec tab "chat") as [->|H6];
    [do 5 right; left; split; reflexivity|].
  destruct (String.eqb_spec tab "finance") as [->|H7];
    [do 6 right; left; split; reflexivity|].
  do 7 right. split; [|reflexivity].
  cbn. rewrite !not_elem_of_cons. repeat split; try assumption. apply not_elem_of_nil.
Qed.

(** [App] shows exactly one page for each of the seven keys of the
    navigation bar and nothing for any other tab; the menu of small screens
    offers the same keys in the same order, and every target of the home
    page is one of them. So no button leads to an empty page. *)
Theorem navigation_targets_have_a_page (key : string) :
  ((exists p, App_main key = [p]) <-> (key ∈ TopNav_items.*1)) /\
  (key ∉ TopNav_items.*1 -> App_main key = []) /\
  TopNav_menu.*1 = TopNav_items.*1 /\
  (key ∈ HomePage_targets -> key ∈ TopNav_items.*1).
Proof.
  split; [|split; [|split]].
  - split.
    + intros [p Hp].
      destruct (App_main_cases key) as [[-> _]|[[-> _]|[[-> _]|[[-> _]|[[-> _]|[[-> _]|
        [[-> _]|[_ Hnone]]]]]]]]; try compute_done.
      rewrite Hnone in Hp. discriminate Hp.
    + intros Hin.
      destruct (App_main_cases key) as [[_ E]|[[_ E]|[[_ E]|[[_ E]|[[_ E]|[[_ E]|
        [[_ E]|[Hout _]]]]]]]]; try (eexists; exact E).
      contradiction.
  - intros Hout.
    destruct (App_main_cases key) as [[-> _]|[[-> _]|[[-> _]|[[-> _]|[[-> _]|[[-> _]|
      [[-> _]|[_ Hnone]]]]]]]]; try (exfalso; apply Hout; compute_done).
    exact Hnone.
  - reflexivity.
  - unfold HomePage_targets. rewrite !elem_of_cons, elem_of_nil.
    intros [->|[->|[->|[->|[->|[->|[->|[->|[]]]]]]]]]; compute_done.
Qed.

Lemma navigation_targets_have_a_page_witness :
  (exists p, App_main "weather" = [p]) /\ App_main "settings" = [].
Proof.
  split.
  - apply (proj1 (navigation_targets_have_a_page "weather")). compute_done.
  - apply (proj1 (proj2 (navigation_targets_have_a_page "settings"))). compute_done.
Defined.

Lemma persist_tab_returns (ss : LocalStorage) (t : string) :
  exists ss', persist_tab ss t = Returned ss' /\
    (ss' = ss \/
     ss' = {| ls_denied := ls_denied ss; ls_quota := ls_quota ss;
              ls_records := <[tab_key := t]> (ls_records ss) |}).
Proof.
  unfold persist_tab, setItem.
  destruct (ls_denied ss); [eexists; split; [reflexivity | left; reflexivity]|].
  destruct (ls_quota ss <? N.of_nat (String.length t))%N;
    eexists; (split; [reflexivity|]); [left | right]; reflexivity.
Qed.

Lemma persist_tab_fits (ss : LocalStorage) (t : string) :
  ls_denied ss = false ->
  (N.of_nat (String.length t) <= ls_quota ss)%N ->
  persist_tab ss t =
    Returned {| ls_denied := false; ls_quota := ls_quota ss;
                ls_records := <[tab_key := t]> (ls_records ss) |}.
Proof.
  intros Hd Hq. unfold persist_tab. rewrite (setItem_fits ss tab_key t Hd Hq). reflexivity.
Qed.

Lemma App_restores (ss : LocalStorage) (key : string) :
  ls_denied ss = false ->
  ls_records ss !! tab_key = Some key ->
  key <> "" ->
  (N.of_nat (String.length key) <= ls_quota ss)%N ->
  exists restored,
    App ss = Returned restored /\ tab restored = key /\
    ls_records (session restored) !! tab_key = Some key.
Proof.
  intros Hd Hr Hne Hq. unfold App, getItem. rewrite Hd. cbn [mbind outcome_bind].
  rewrite Hr. destruct (persist_tab_returns ss "home") as (ss1 & -> & Hss1).
  cbn [mbind outcome_bind].
  assert (Hd1 : ls_denied ss1 = false).
  { destruct Hss1 as [->| ->]; [exact Hd | cbn; exact Hd]. }
  assert (Hq1 : ls_quota ss1 = ls_quota ss) by (destruct Hss1 as [->| ->]; reflexivity).
  apply truthy_nonempty in Hne. rewrite Hne. cbn [andb].
  destruct (String.eqb_spec key "home") as [->|Hnh]; cbn [negb].
  - eexists. split; [reflexivity|]. split; [reflexivity|]. cbn [session].
    destruct Hss1 as [->| ->]; [exact Hr | cbn [ls_records]; apply lookup_insert_eq].
  - rewrite (persist_tab_fits ss1 key Hd1); [|rewrite Hq1; exact Hq].
    cbn [mbind outcome_bind]. eexists. split; [reflexivity|]. split; [reflexivity|].
    cbn [session ls_records]. apply lookup_insert_eq.
Qed.

(** The tab survives a reload. After [setTab] to a key that is not empty,
    on a session storage that takes the write, a fresh mount restores that
    tab, and the storage still holds it afterwards. *)
Theorem tab_survives_reload (key : string) (st : AppState) :
  key <> "" ->
  ls_denied (session st) = false ->
  (N.of_nat (String.length key) <= ls_quota (session st))%N ->
  key <> tab st ->
  exists st' restored,
    setTab key st = Returned st' /\ tab st' = key /\
    App (session st') = Returned restored /\
    tab restored = key /\
    ls_records (session restored) !! tab_key = Some key.
Proof.
  intros Hne Hd Hq Hother. unfold setTab.
  destruct (String.eqb_spec key (tab st)) as [E|_]; [contradiction|].
  rewrite (persist_tab_fits (session st) key Hd Hq). cbn [mbind outcome_bind].
  set (ss := {| ls_denied := false; ls_quota := ls_quota (session st);
                ls_records := <[tab_key := key]> (ls_records (session st)) |}).
  destruct (App_restores ss key) as (restored & E & Ht & Hr);
    [reflexivity | apply lookup_insert_eq | exact Hne | exact Hq |].
  exists {| tab := key; session := ss |}, restored.
  split; [reflexivity|]. split; [reflexivity|]. cbn [session]. auto.
Qed.

Lemma tab_survives_reload_witness :
  exists st' restored,
    setTab "mandi" {| tab := "home"; session := empty_storage |} = Returned st' /\
    tab st' = "mandi" /\
    App (session st') = Returned restored /\
    tab restored = "mandi" /\
    ls_records (session restored) !! tab_key = Some "mandi".
Proof.
  apply (tab_survives_reload "mandi" {| tab := "home"; session := empty_storage |});
    [discriminate | reflexivity | vm_compute; discriminate | discriminate].
Defined.

(** The stored tab is read outside any [try] and is not checked. When
    session storage refuses access the mount of [App] throws, although
    later writes are guarded; and a stored text that is not the key of a
    page becomes the tab all the same, with no page shown. *)
Theorem stored_tab_is_trusted (ss : LocalStorage) :
  (ls_denied ss = true -> App ss = Thrown SecurityError) /\
  (forall key st, returns (setTab key st)) /\
  (forall t, ls_denied ss = false -> ls_records ss !! tab_key = Some t ->
     t <> "" -> t ∉ TopNav_items.*1 ->
     exists st, App ss = Returned st /\ tab st = t /\ App_main (tab st) = []).
Proof.
  split; [|split].
  - intros Hd. unfold App, getItem. rewrite Hd. reflexivity.
  - intros key st. unfold setTab. destruct (String.eqb key (tab st)); [eexists; reflexivity|].
    destruct (persist_tab_returns (session st) key) as (ss' & -> & _).
    eexists. reflexivity.
  - intros t Hd Hr Hne Hout. unfold App, getItem. rewrite Hd. cbn [mbind outcome_bind].
    rewrite Hr. destruct (persist_tab_returns ss "home") as (ss1 & -> & _).
    cbn [mbind outcome_bind]. apply truthy_nonempty in Hne. rewrite Hne. cbn [andb].
    destruct (String.eqb_spec t "home") as [->|_].
    { exfalso. apply Hout. compute_done. }
    cbn [negb]. destruct (persist_tab_returns ss1 t) as (ss2 & -> & _).
    cbn [mbind outcome_bind]. eexists. split; [reflexivity|]. split; [reflexivity|].
    cbn [tab]. destruct (App_main_cases t) as [[-> _]|[[-> _]|[[-> _]|[[-> _]|[[-> _]|
      [[-> _]|[[-> _]|[_ Hnone]]]]]]]]; try (exfalso; apply Hout; compute_done).
    exact Hnone.
Qed.

Lemma stored_tab_is_trusted_witness :
  App refused_storage = Thrown SecurityError /\
  exists st, App (stored_tab "settings") = Returned st /\
    tab st = "settings" /\ App_main (tab st) = [].
Proof.
  split.
  - apply (proj1 (stored_tab_is_trusted refused_storage)). reflexivity.
  - apply (proj2 (proj2 (stored_tab_is_trusted (stored_tab "settings"))) "settings");
      [reflexivity | reflexivity | discriminate | compute_done].
Defined.

End App_facts.

(** ** Identifiers *)

Section genId_facts.

Lemma str_app_assoc (a b c : string) : (a +:+ b) +:+ c = a +:+ (b +:+ c).
Proof.
  induction a as [|x a IH]; [reflexivity|].
  change (String x ((a +:+ b) +:+ c) = String x (a +:+ (b +:+ c))). f_equal. exact IH.
Qed.

Lemma str_length_app (a b : string) :
  String.length (a +:+ b) = (String.length a + String.length b)%nat.
Proof.
  induction a as [|x a IH]; [reflexivity|].
  change (S (String.length (a +:+ b)) = S (String.length a + String.length b)).
  f_equal. exact IH.
Qed.

Lemma substring_after (a s : string) (k : nat) :
  substring (String.length a) k (a +:+ s) = substring 0 k s.
Proof. induction a as [|x a IH]; [reflexivity | exact IH]. Qed.

Lemma str_slice_last_app (a s : string) :
  str_slice_last (String.length s) (a +:+ s) = substring 0 (String.length s) s.
Proof.
  unfold str_slice_last. rewrite str_length_app.
  replace (String.length a + String.length s - String.length s)%nat
    with (String.length a) by lia.
  apply substring_after.
Qed.

(** The digits are written in front of the accumulator. *)
Lemma toString36_digits_prepends (fuel : nat) (n : N) (acc : string) :
  exists pre, toString36_digits fuel n acc = pre +:+ acc.
Proof.
  revert n acc. induction fuel as [|fuel IH]; intros n acc; cbn [toString36_digits].
  - exists "". reflexivity.
  - cbv zeta. destruct (n / 36 =? 0)%N.
    + exists (String (digit36 (n mod 36)) ""). reflexivity.
    + destruct (IH (n / 36)%N (String (digit36 (n mod 36)) acc)) as [pre ->].
      exists (pre +:+ String (digit36 (n mod 36)) ""). rewrite str_app_assoc. reflexivity.
Qed.

Lemma toString36_digits_more (fuel : nat) (n : N) (acc : string) :
  (n / 36 <> 0)%N ->
  toString36_digits (S fuel) n acc =
  toString36_digits fuel (n / 36) (String (digit36 (n mod 36)) acc).
Proof.
  intros Hn. cbn [toString36_digits]. cbv zeta.
  apply N.eqb_neq in Hn. rewrite Hn. reflexivity.
Qed.

Lemma toString36_digits_last (fuel : nat) (n : N) (acc : string) :
  exists pre, toString36_digits (S fuel) n acc = pre +:+ String (digit36 (n mod 36)) acc.
Proof.
  cbn [toString36_digits]. cbv zeta. destruct (n / 36 =? 0)%N.
  - exists "". reflexivity.
  - apply toString36_digits_prepends.
Qed.

(** From 36^4 on, the text in base 36 ends with the five digits of the
    number modulo 36^5. *)
Lemma toString36_ends (n : N) :
  (1679616 <= n)%N ->
  exists pre,
    toString36 (Z.of_N n) =
    pre +:+ String (digit36 (n / 36 / 36 / 36 / 36 mod 36))
              (String (digit36 (n / 36 / 36 / 36 mod 36))
                 (String (digit36 (n / 36 / 36 mod 36))
                    (String (digit36 (n / 36 mod 36))
                       (String (digit36 (n mod 36)) "")))).
Proof.
  intros Hn. unfold toString36. rewrite N2Z.id.
  assert (Hlog : (20 <= N.log2 n)%N).
  { change 20%N with (N.log2 1679616). apply N.log2_le_mono, Hn. }
  assert (H1 : (46656 <= n / 36)%N) by (apply N.div_le_lower_bound; lia).
  assert (H2 : (1296 <= n / 36 / 36)%N) by (apply N.div_le_lower_bound; lia).
  assert (H3 : (36 <= n / 36 / 36 / 36)%N) by (apply N.div_le_lower_bound; lia).
  assert (H4 : (1 <= n / 36 / 36 / 36 / 36)%N) by (apply N.div_le_lower_bound; lia).
  assert (Hfuel : exists f, N.to_nat (N.log2 n) = (4 + f)%nat)
    by (exists (N.to_nat (N.log2 n) - 4)%nat; lia).
  destruct Hfuel as [f ->]. cbn [Nat.add].
  rewrite !toString36_digits_more by lia.
  apply toString36_digits_last.
Qed.

Lemma digits_shift (n k : N) :
  let n' := (n + k * 60466176)%N in
  (n' mod 36 = n mod 36 /\
   n' / 36 mod 36 = n / 36 mod 36 /\
   n' / 36 / 36 mod 36 = n / 36 / 36 mod 36 /\
   n' / 36 / 36 / 36 mod 36 = n / 36 / 36 / 36 mod 36 /\
   n' / 36 / 36 / 36 / 36 mod 36 = n / 36 / 36 / 36 / 36 mod 36)%N.
Proof.
  cbv zeta.
  assert (E1 : ((n + k * 60466176) / 36 = n / 36 + k * 1679616)%N).
  { replace (k * 60466176)%N with (k * 1679616 * 36)%N by lia. apply N.div_add. lia. }
  assert (E2 : ((n / 36 + k * 1679616) / 36 = n / 36 / 36 + k * 46656)%N).
  { replace (k * 1679616)%N with (k * 46656 * 36)%N by lia. apply N.div_add. lia. }
  assert (E3 : ((n / 36 / 36 + k * 46656) / 36 = n / 36 / 36 / 36 + k * 1296)%N).
  { replace (k * 46656)%N with (k * 1296 * 36)%N by lia. apply N.div_add. lia. }
  assert (E4 : ((n / 36 / 36 / 36 + k * 1296) / 36 = n / 36 / 36 / 36 / 36 + k * 36)%N).
  { replace (k * 1296)%N with (k * 36 * 36)%N by lia. apply N.div_add. lia. }
  rewrite E1, E2, E3, E4.
  replace (k * 60466176)%N with (k * 1679616 * 36)%N by lia.
  replace (k * 1679616)%N with (k * 46656 * 36)%N at 2 by lia.
  replace (k * 46656)%N with (k * 1296 * 36)%N at 2 by lia.
  replace (k * 1296)%N with (k * 36 * 36)%N at 2 by lia.
  rewrite !N.Div0.mod_add. repeat split; reflexivity.
Qed.

(** Without [crypto.randomUUID] the id is built from seven characters of
    the random text and the last five base-36 digits of the clock only.
    So two calls that draw the same random text at times that differ by a
    multiple of 36^5 milliseconds (about 16.8 hours) produce the same id:
    the fallback ids are not unique by construction. *)
Theorem genId_fallback_repeats (b b' : Browser) (k : Z) :
  no_randomUUID b -> no_randomUUID b' ->
  str_slice 2 9 (Math_random_text b) = str_slice 2 9 (Math_random_text b') ->
  (1679616 <= Date_now b)%Z -> (0 <= k)%Z ->
  Date_now b' = (Date_now b + k * 60466176)%Z ->
  genId b = genId b'.
Proof.
  intros Hb Hb' Hrnd Hnow Hk Hlater.
  rewrite (genId_fallback b Hb), (genId_fallback b' Hb'), Hrnd. do 3 f_equal.
  set (n := Z.to_N (Date_now b)). set (j := Z.to_N k).
  assert (En : Date_now b = Z.of_N n) by (unfold n; rewrite Z2N.id; lia).
  assert (En' : Date_now b' = Z.of_N (n + j * 60466176)).
  { rewrite Hlater, En. unfold j. rewrite N2Z.inj_add, N2Z.inj_mul, Z2N.id by lia.
    reflexivity. }
  assert (Hn : (1679616 <= n)%N) by (unfold n; lia).
  rewrite En, En'.
  destruct (toString36_ends n Hn) as [pre ->].
  destruct (toString36_ends (n + j * 60466176)%N ltac:(lia)) as [pre' ->].
  destruct (digits_shift n j) as (-> & -> & -> & -> & ->).
  set (five := String _ _).
  change 5%nat with (String.length five).
  rewrite !str_slice_last_app. reflexivity.
Qed.

Lemma genId_fallback_repeats_witness :
  genId (old_browser 1762150000000) = genId (old_browser (1762150000000 + 3 * 60466176)).
Proof.
  apply (genId_fallback_repeats (old_browser 1762150000000)
           (old_browser (1762150000000 + 3 * 60466176)) 3);
    [left; reflexivity | left; reflexivity | reflexivity | vm_compute; discriminate
    | lia | reflexivity].
Defined.

End genId_facts.
